(** * push_storymap_r4_to_miro.py: a story map laid out on a Miro board

    A shallow embedding of the script: its numeric and string values, the
    placement functions, the CSV loader and the renderer with its two modes
    (preview and apply), followed by the properties proved about them. *)

From Stdlib Require Import ZArith String Ascii List Lia.
From Stdlib Require Import PrimFloat SpecFloat FloatOps DecimalString.
From stdpp Require Import gmap strings list sorting.

Local Open Scope string_scope.
Local Open Scope list_scope.

(** ** Python values *)

(** Exceptions the script can raise: the first two with their message, the
    last with the text that failed to decode. *)
Inductive exn : Type :=
| RuntimeError (msg : string)
| AttributeError (msg : string)
| ZeroDivisionError
| JSONDecodeError (doc : string).

(** The outcome of a computation that may raise. *)
Inductive result (A : Type) : Type :=
| Ok (a : A)
| Raise (e : exn).
Arguments Ok {A} a.
Arguments Raise {A} e.

Definition result_bind {A B} (r : result A) (k : A -> result B) : result B :=
  match r with
  | Ok a => k a
  | Raise e => Raise e
  end.

(** A Python number: an [int] (unbounded) or a [float] (binary64). *)
Inductive pynum : Type :=
| PyInt (z : Z)
| PyFloat (f : float).
Coercion PyInt : Z >-> pynum.

(** [float(z)]: the binary64 nearest to [z] (ties to even).  Python raises
    OverflowError from 2^1024 on, where this gives infinity; the integers of
    the script are list indices times small constants. *)
Definition float_of_Z (z : Z) : float :=
  SF2Prim (binary_normalize prec emax z 0 false).

Definition as_float (n : pynum) : float :=
  match n with
  | PyInt z => float_of_Z z
  | PyFloat f => f
  end.

(** Binary arithmetic: [int op int] stays an [int], anything else is computed
    on floats after converting the [int] operand. *)
Definition py_binop (fz : Z -> Z -> Z) (ff : float -> float -> float)
    (a b : pynum) : pynum :=
  match a, b with
  | PyInt x, PyInt y => PyInt (fz x y)
  | _, _ => PyFloat (ff (as_float a) (as_float b))
  end.

Definition py_add : pynum -> pynum -> pynum := py_binop Z.add PrimFloat.add.
Definition py_sub : pynum -> pynum -> pynum := py_binop Z.sub PrimFloat.sub.
Definition py_mul : pynum -> pynum -> pynum := py_binop Z.mul PrimFloat.mul.

(** True division [a / b]: always a float.  The script only divides
    constants by the literal 2, so ZeroDivisionError is not modelled here. *)
Definition py_truediv (a b : pynum) : pynum :=
  PyFloat (PrimFloat.div (as_float a) (as_float b)).

(** Floor division and remainder of ints; both raise on a zero divisor.
    [Z.div] and [Z.modulo] round towards minus infinity, as Python does. *)
Definition py_floordiv (a b : Z) : result Z :=
  if (b =? 0)%Z then Raise ZeroDivisionError
  else Ok (a / b)%Z.

Definition py_mod (a b : Z) : result Z :=
  if (b =? 0)%Z then Raise ZeroDivisionError
  else Ok (a mod b)%Z.

Declare Scope py_scope.
Delimit Scope py_scope with py.
Bind Scope py_scope with pynum.
Notation "a + b" := (py_add a b) : py_scope.
Notation "a - b" := (py_sub a b) : py_scope.
Notation "a * b" := (py_mul a b) : py_scope.
Notation "a / b" := (py_truediv a b) : py_scope.

(** [str(z)] for an int. *)
Definition str_of_Z (z : Z) : string := NilZero.string_of_int (Z.to_int z).

(** ** Python strings

    A [str] is held as its UTF-8 encoding, which is how the literals of this
    file are read.  Operations that count characters go through the code
    points. *)

Definition nl : string := String (ascii_of_nat 10) EmptyString.

Module Utf8.

Definition byte (a : ascii) : N := N_of_ascii a.

(** Code points of a UTF-8 string.  A lead byte announces one to three
    continuation bytes; a truncated sequence ends the decoding. *)
Fixpoint decode (s : string) : list N :=
  match s with
  | EmptyString => []
  | String a r =>
      let b0 := byte a in
      if (b0 <? 192)%N then b0 :: decode r
      else match r with
      | EmptyString => [b0]
      | String a1 r1 =>
          let b1 := (byte a1 - 128)%N in
          if (b0 <? 224)%N then ((b0 - 192) * 64 + b1)%N :: decode r1
          else match r1 with
          | EmptyString => [b0]
          | String a2 r2 =>
              let b2 := (byte a2 - 128)%N in
              if (b0 <? 240)%N
              then ((b0 - 224) * 4096 + b1 * 64 + b2)%N :: decode r2
              else match r2 with
              | EmptyString => [b0]
              | String a3 r3 =>
                  let b3 := (byte a3 - 128)%N in
                  ((b0 - 240) * 262144 + b1 * 4096 + b2 * 64 + b3)%N
                    :: decode r3
              end
          end
      end
  end.

Definition chr (n : N) : ascii := ascii_of_N n.

Definition encode1 (c : N) : string :=
  if (c <? 128)%N then String (chr c) EmptyString
  else if (c <? 2048)%N then
    String (chr (192 + c / 64)) (String (chr (128 + c mod 64)) EmptyString)
  else if (c <? 65536)%N then
    String (chr (224 + c / 4096))
      (String (chr (128 + (c / 64) mod 64))
         (String (chr (128 + c mod 64)) EmptyString))
  else
    String (chr (240 + c / 262144))
      (String (chr (128 + (c / 4096) mod 64))
         (String (chr (128 + (c / 64) mod 64))
            (String (chr (128 + c mod 64)) EmptyString))).

Definition encode (cs : list N) : string :=
  fold_right (fun c s => encode1 c +:+ s) EmptyString cs.

End Utf8.

(** The characters [str.strip()] removes: [str.isspace] of CPython. *)
Definition is_space (c : N) : bool :=
  ((9 <=? c) && (c <=? 13) || (28 <=? c) && (c <=? 32)
   || (c =? 133) || (c =? 160) || (c =? 5760)
   || (8192 <=? c) && (c <=? 8202)
   || (c =? 8232) || (c =? 8233) || (c =? 8239) || (c =? 8287)
   || (c =? 12288))%N.

Fixpoint lstrip_points (cs : list N) : list N :=
  match cs with
  | c :: r => if is_space c then lstrip_points r else cs
  | [] => []
  end.

(** [s.strip()] *)
Definition str_strip (s : string) : string :=
  Utf8.encode (rev (lstrip_points (rev (lstrip_points (Utf8.decode s))))).

(** [s[:n]] *)
Definition str_take (n : nat) (s : string) : string :=
  Utf8.encode (take n (Utf8.decode s)).

(** [str.lower()] restricted to ASCII letters.  It agrees with Python on
    strings whose upper-case letters are ASCII, and stands in for
    [str.lower] where a concrete run is evaluated; the model itself takes
    [str.lower] as a parameter. *)
Definition ascii_lower_char (a : ascii) : ascii :=
  let n := N_of_ascii a in
  if ((65 <=? n) && (n <=? 90))%N then ascii_of_N (n + 32) else a.

Fixpoint ascii_lower (s : string) : string :=
  match s with
  | EmptyString => EmptyString
  | String a r => String (ascii_lower_char a) (ascii_lower r)
  end.

(** [d.get(key, default)] on a dict with string keys. *)
Definition dict_get {V} (d : gmap string V) (key : string) (dflt : V) : V :=
  default dflt (d !! key).

(** ** Visual configuration *)

Definition TEAM_COLOR_items : list (string * string) :=
  [ ("IHM", "light_yellow");
    ("BPM", "light_green");
    ("Métier", "light_blue");
    ("Metier", "light_blue");
    ("Finance", "light_blue");
    ("MO", "light_pink") ].

Definition TEAM_COLOR : gmap string string := list_to_map TEAM_COLOR_items.

Definition STATUS_EMOJI_items : list (string * string) :=
  [ ("Backlog", "⬜️");
    ("À faire", "🟦");
    ("En cours", "🟨");
    ("Bloqué", "🟥");
    ("À valider", "🟪");
    ("Terminé", "✅") ].

Definition STATUS_EMOJI : gmap string string := list_to_map STATUS_EMOJI_items.

(** Sizes and gaps, in board pixels. *)
Definition FRAME_W : Z := 1800.
Definition FRAME_H : Z := 1400.
Definition COL_GAP : Z := 300.
Definition ROW_GAP : Z := 200.

Definition STICKY_W : Z := 220.
Definition STICKY_H : Z := 140.
Definition STICKY_GAP_X : Z := 40.
Definition STICKY_GAP_Y : Z := 30.

Definition TITLE_HEIGHT : Z := 100.
Definition LANE_HEIGHT : Z := 260.

Definition ORIGIN_X : Z := -2000.
Definition ORIGIN_Y : Z := -1000.

(** ** Data model

    The story map is a tree of dicts.  The renderer reads every entry with
    [dict.get] and a default, so an entry may be absent: [None] below. *)

Record Story : Type := mkStory {
  story_title : option string;
  story_sprint : option string;
  story_team : option string;
  story_status : option string
}.

Record Activity : Type := mkActivity {
  act_name : option string;
  act_stories : option (list Story)
}.

Record Theme : Type := mkTheme {
  theme_name : option string;
  theme_activities : option (list Activity)
}.

Record Model : Type := mkModel {
  model_release : option string;
  model_themes : option (list Theme)
}.

(** A dict literal with its four entries present. *)
Definition story (title sprint team status : string) : Story :=
  mkStory (Some title) (Some sprint) (Some team) (Some status).

Definition activity (name : string) (stories : list Story) : Activity :=
  mkActivity (Some name) (Some stories).

Definition theme (name : string) (activities : list Activity) : Theme :=
  mkTheme (Some name) (Some activities).

Definition DEFAULT_MODEL : Model :=
  mkModel (Some "R4") (Some
  [ theme "Cartes Grises & Attestations"
      [ activity "Réception & stockage"
          [ story "Réceptionner CG/attestation" "S1" "IHM" "Backlog";
            story "Stocker document avec métadonnées" "S1" "BPM" "À faire";
            story "Appariement auto doc⇄dossier" "S2" "BPM" "Backlog" ];
        activity "Contrôles & anomalies"
          [ story "Détecter incohérences (EKIP/MO)" "S2" "BPM" "Backlog";
            story "File d'anomalies traitable" "S3" "Métier" "Backlog" ];
        activity "Facturation de frais"
          [ story "Tracer frais liés CG" "S3" "Finance" "Backlog" ] ];
    theme "Paiement fournisseurs & prélèvements clients"
      [ activity "Association d'infos externes"
          [ story "Associer libellés SEPA" "S1" "MO" "Backlog";
            story "Associer n° facture & annexes" "S2" "MO" "Backlog" ];
        activity "Traçabilité & reporting"
          [ story "Traçabilité bout-en-bout" "S3" "MO" "Backlog";
            story "Standardiser reporting" "S3" "Finance" "Backlog" ] ];
    theme "Co-baillage"
      [ activity "Création & gestion dossier"
          [ story "Créer dossier co-baillage" "S1" "IHM" "Backlog";
            story "Générer conventions" "S2" "BPM" "Backlog";
            story "Ajout docs au dossier" "S2" "IHM" "Backlog" ];
        activity "Quote-parts & intégration EKIP360"
          [ story "Partager quote-parts" "S3" "Finance" "Backlog";
            story "Édition auto des contrats" "S3" "BPM" "Backlog" ] ];
    theme "Syndication"
      [ activity "Contrats miroir & automatisation"
          [ story "Créer contrats miroir" "S2" "BPM" "Backlog";
            story "Générer contrats de syndication" "S3" "BPM" "Backlog";
            story "Calcul taux de refinancement" "S3" "Finance" "Backlog" ];
        activity "Intégrations système"
          [ story "Intégrer EKIP360/MOCA" "S3" "MO" "Backlog";
            story "Réduire double-saisie" "S3" "IHM" "Backlog" ] ] ]).

(** ** Placement *)

Section Placement.
Local Open Scope Z_scope.

(** [compute_frame_origin(col_idx, row_idx=0)] *)
Definition compute_frame_origin (col_idx row_idx : Z) : pynum * pynum :=
  let x := (ORIGIN_X + col_idx * (FRAME_W + COL_GAP))%py in
  let y := (ORIGIN_Y + row_idx * (FRAME_H + ROW_GAP))%py in
  (x, y).

Definition lane_y (frame_y : pynum) (lane_idx : Z) : pynum :=
  (frame_y - FRAME_H / 2 + TITLE_HEIGHT + lane_idx * LANE_HEIGHT
   + LANE_HEIGHT / 2)%py.

Definition lane_title_y (frame_y : pynum) (lane_idx : Z) : pynum :=
  (frame_y - FRAME_H / 2 + TITLE_HEIGHT + lane_idx * LANE_HEIGHT + 30)%py.

(** The body of the loop of [sticky_grid_positions], run over the indices
    [idxs] that remain, with the list built so far. *)
Fixpoint sticky_grid_loop (start_x start_y : pynum) (columns : Z)
    (idxs : list Z) (positions : list (pynum * pynum))
    : result (list (pynum * pynum)) :=
  match idxs with
  | [] => Ok positions
  | i :: rest =>
      result_bind (py_floordiv i columns) (fun row =>
      result_bind (py_mod i columns) (fun col =>
      let x := (start_x + col * (STICKY_W + STICKY_GAP_X))%py in
      let y := (start_y + row * (STICKY_H + STICKY_GAP_Y))%py in
      sticky_grid_loop start_x start_y columns rest (positions ++ [(x, y)])))
  end.

(** [range(count)] *)
Definition py_range (count : Z) : list Z := seqZ 0 count.

Definition sticky_grid_positions (start_x start_y : pynum) (columns count : Z)
    : result (list (pynum * pynum)) :=
  sticky_grid_loop start_x start_y columns (py_range count) [].

End Placement.

(** ** The Sink: requests, responses and what a run leaves behind

    The Sink answers every POST with a response; failures of the transport
    itself (exceptions of [requests.post]) are outside the model. *)

(** A JSON document, as [json.dumps] receives it. *)
#[warnings="-register-all"]
Inductive json : Type :=
| JStr (s : string)
| JNum (n : pynum)
| JObj (fields : list (string * json)).

Record request : Type := mkRequest {
  req_url : string;
  req_headers : list (string * string);
  req_body : json
}.

(** What [resp.json()] returns, as far as the script looks at it: a dict,
    held with the text [str] gives of each of its values (the script does
    nothing with the one under "id" but print it), or a value of another
    type (a list, a number, a string, [None]), held by the name of its
    type. *)
Inductive decoded : Type :=
| JsonObject (entries : gmap string string)
| JsonOther (type_name : string).

(** What [requests.post] returns: the status, the raw text, and the decoded
    body ([None] when [resp.json()] raises). *)
Record response : Type := mkResponse {
  status_code : Z;
  resp_text : string;
  resp_json : option decoded
}.

(** One constructor per [print] call of the renderer, holding the values its
    f-string interpolates. *)
Inductive message : Type :=
| DryFrame (frame_title : string) (fx fy : pynum)
| FrameCreated (frame_title : string) (frame_id : option string)
| DryLane (act_name : string) (title_x title_y : pynum)
| LaneCreated (act_name : string) (sid : option string)
| DrySticky (text40 : string) (sx sy : pynum) (color : string)
| StickyCreated (sid : option string) (text60 : string).

(** The observable steps of a run, in order: a POST with the answer it got,
    the text of a [print] call, a pause ([time.sleep], in milliseconds). *)
Inductive event : Type :=
| Posted (rq : request) (rs : response)
| Printed (m : message)
| Slept (millis : Z).

Section Console.
(** [repr] of a float, as an f-string writes it. *)
Variable repr_float : float -> string.

Definition str_of_num (n : pynum) : string :=
  match n with
  | PyInt z => str_of_Z z
  | PyFloat f => repr_float f
  end.

(** An identifier may be [None], which prints as such. *)
Definition str_of_id (i : option string) : string := default "None" i.

Definition message_text (m : message) : string :=
  match m with
  | DryFrame frame_title fx fy =>
      "[DRY] Frame '" +:+ frame_title +:+ "' @ (" +:+ str_of_num fx +:+ ","
      +:+ str_of_num fy +:+ ")"
  | FrameCreated frame_title frame_id =>
      "Frame créé: " +:+ frame_title +:+ " -> " +:+ str_of_id frame_id
  | DryLane act_name title_x title_y =>
      "[DRY] Lane '" +:+ act_name +:+ "' title @ (" +:+ str_of_num title_x
      +:+ "," +:+ str_of_num title_y +:+ ")"
  | LaneCreated act_name sid =>
      "  Lane titre créé: " +:+ act_name +:+ " -> " +:+ str_of_id sid
  | DrySticky text40 sx sy color =>
      "[DRY] Sticky '" +:+ text40 +:+ "...' @ (" +:+ str_of_num sx +:+ ","
      +:+ str_of_num sy +:+ ") color=" +:+ color
  | StickyCreated sid text60 =>
      "    Sticky créé: " +:+ str_of_id sid +:+ " -> " +:+ text60 +:+ "..."
  end.

End Console.

(** ** Effects

    A computation runs against the Sink and yields a value or an exception,
    the events it produced, and the Sink afterwards. *)

Section Effects.
Variable Sink : Type.
(** The Sink's answer to one HTTP POST. *)
Variable sink_post : Sink -> request -> response * Sink.

Definition M (A : Type) : Type := Sink -> result A * list event * Sink.

Definition ret {A} (a : A) : M A := fun s => (Ok a, [], s).

Definition bind {A B} (m : M A) (k : A -> M B) : M B := fun s =>
  match m s with
  | (Ok a, t1, s1) =>
      let '(r, t2, s2) := k a s1 in (r, t1 ++ t2, s2)
  | (Raise e, t1, s1) => (Raise e, t1, s1)
  end.

Definition raise {A} (e : exn) : M A := fun s => (Raise e, [], s).

Definition lift {A} (r : result A) : M A := fun s => (r, [], s).

Definition emit_event (ev : event) : M unit := fun s => (Ok tt, [ev], s).

(** [print(...)] and [time.sleep(...)] *)
Definition print (m : message) : M unit := emit_event (Printed m).
Definition sleep (millis : Z) : M unit := emit_event (Slept millis).

(** [requests.post(url, headers=..., data=json.dumps(payload))] *)
Definition requests_post (url : string) (headers : list (string * string))
    (payload : json) : M response := fun s =>
  let rq := mkRequest url headers payload in
  let '(rs, s') := sink_post s rq in
  (Ok rs, [Posted rq rs], s').

Notation "x <- m ;; k" := (bind m (fun x => k))
  (at level 100, m at next level, right associativity).
Notation "m ;; k" := (bind m (fun _ => k))
  (at level 100, right associativity).

(** [for a in l: body(a)] *)
Fixpoint for_each {A} (l : list A) (body : A -> M unit) : M unit :=
  match l with
  | [] => ret tt
  | a :: rest => body a ;; for_each rest body
  end.

(** [enumerate(l)] *)
Definition enumerate {A} (l : list A) : list (Z * A) :=
  imap (fun i a => (Z.of_nat i, a)) l.

(** *** HTTP helpers *)

Definition _auth_headers (token : string) : list (string * string) :=
  [ ("Authorization", "Bearer " +:+ token);
    ("Content-Type", "application/json") ].

Definition post_failed (url : string) (rs : response) : string :=
  "POST " +:+ url +:+ " failed: " +:+ str_of_Z (status_code rs) +:+ " "
  +:+ resp_text rs.

Definition _post (url token : string) (payload : json) : M decoded :=
  resp <- requests_post url (_auth_headers token) payload ;;
  if (400 <=? status_code resp)%Z
  then raise (RuntimeError (post_failed url resp))
  else match resp_json resp with
       | Some out => ret out
       | None => raise (JSONDecodeError (resp_text resp))
       end.

(** [out.get(key)]: only a dict has [get]. *)
Definition out_get (out : decoded) (key : string) : M (option string) :=
  match out with
  | JsonObject entries => ret (entries !! key)
  | JsonOther type_name =>
      raise (AttributeError
               ("'" +:+ type_name +:+ "' object has no attribute 'get'"))
  end.

(** *** Miro primitives *)

Definition boards_url (board_id : string) : string :=
  "https://api.miro.com/v2/boards/" +:+ board_id.

Definition create_frame (board_id token title : string) (x y : pynum)
    (w h : Z) : M (option string) :=
  let url := boards_url board_id +:+ "/frames" in
  let payload :=
    JObj [ ("data", JObj [("title", JStr title)]);
           ("position", JObj [("x", JNum x); ("y", JNum y)]) ] in
  out <- _post url token payload ;;
  out_get out "id".

Definition create_shape (board_id token text : string) (x y : pynum)
    (w h : Z) (shape : string) : M (option string) :=
  let url := boards_url board_id +:+ "/shapes" in
  let payload :=
    JObj [ ("data", JObj [("content", JStr text); ("shape", JStr shape)]);
           ("position", JObj [("x", JNum x); ("y", JNum y)]);
           ("style", JObj [("fontSize", JNum 28%Z)]) ] in
  out <- _post url token payload ;;
  out_get out "id".

Definition create_sticky (board_id token text : string) (x y : pynum)
    (color : string) (w h : Z) : M (option string) :=
  let url := boards_url board_id +:+ "/sticky_notes" in
  let payload :=
    JObj [ ("data", JObj [("content", JStr text)]);
           ("style", JObj [("fillColor", JStr color);
                           ("textAlign", JStr "left")]);
           ("position", JObj [("x", JNum x); ("y", JNum y)]) ] in
  out <- _post url token payload ;;
  out_get out "id".

(** *** Rendering the story map *)

Section Render.
Variables (board_id token prefix : string) (dry_run : bool).

(** The text of a sticky note. *)
Definition sticky_text (st : Story) : string :=
  let sprint := default "S?" (story_sprint st) in
  let team := default "MO" (story_team st) in
  let status := default "Backlog" (story_status st) in
  let emoji := dict_get STATUS_EMOJI status "⬜️" in
  emoji +:+ " " +:+ default "Story" (story_title st) +:+ nl
  +:+ "[" +:+ team +:+ "] [" +:+ sprint +:+ "]".

Definition sticky_color (st : Story) : string :=
  dict_get TEAM_COLOR (default "MO" (story_team st)) "light_yellow".

(** Body of [for (story, (sx, sy)) in zip(stories, positions)]. *)
Definition story_body (item : Story * (pynum * pynum)) : M unit :=
  let '(st, (sx, sy)) := item in
  let color := sticky_color st in
  let text := sticky_text st in
  if dry_run then print (DrySticky (str_take 40 text) sx sy color)
  else
    sid <- create_sticky board_id token text sx sy color STICKY_W STICKY_H ;;
    print (StickyCreated sid (str_take 60 text)) ;;
    sleep 120.

(** Body of [for lane_idx, activity in enumerate(activities)]. *)
Definition lane_body (fx fy : pynum) (item : Z * Activity) : M unit :=
  let '(lane_idx, act) := item in
  let name :=
    default ("Activité " +:+ str_of_Z (lane_idx + 1)) (act_name act) in
  let title_x := (fx - FRAME_W / 2%Z + 200%Z)%py in
  let title_y := lane_title_y fy lane_idx in
  (if dry_run then print (DryLane name title_x title_y)
   else
     sid <- create_shape board_id token name title_x title_y 600 60
              "round_rectangle" ;;
     print (LaneCreated name sid) ;;
     sleep 150) ;;
  let stories := default [] (act_stories act) in
  match stories with
  | [] => ret tt
  | _ :: _ =>
      let grid_columns := 4%Z in
      let start_x := (fx - FRAME_W / 2%Z + 300%Z)%py in
      let start_y := lane_y fy lane_idx in
      positions <- lift (sticky_grid_positions start_x start_y grid_columns
                           (Z.of_nat (length stories))) ;;
      for_each (zip stories positions) story_body
  end.

(** Body of [for col_idx, theme in enumerate(themes)]. *)
Definition theme_body (item : Z * Theme) : M unit :=
  let '(col_idx, th) := item in
  let name := default ("Theme " +:+ str_of_Z (col_idx + 1)) (theme_name th) in
  let frame_title := prefix +:+ " – " +:+ name in
  let '(fx, fy) := compute_frame_origin col_idx 0 in
  (if dry_run then print (DryFrame frame_title fx fy)
   else
     frame_id <- create_frame board_id token frame_title fx fy
                   FRAME_W FRAME_H ;;
     print (FrameCreated frame_title frame_id) ;;
     sleep 200) ;;
  let activities := default [] (theme_activities th) in
  for_each (enumerate activities) (lane_body fx fy).

Definition render_storymap (model : Model) : M unit :=
  let themes := default [] (model_themes model) in
  for_each (enumerate themes) theme_body.

End Render.
End Effects.

(** ** Loading the story map from CSV rows

    [load_from_csv] is modelled from the rows [csv.DictReader] yields for the
    file: one dict per line, keyed by the header's column names.  A column
    the header lacks is absent from the dict; a line shorter than the header
    has [None] in the columns it does not reach; what a longer line adds is
    kept under a key the loader never reads. *)

Abbreviation Row := (gmap string (option string)).

(** The seven values read from a row, stripped. *)
Record Fields : Type := mkFields {
  f_theme : string;
  f_activity : string;
  f_story : string;
  f_sprint : string;
  f_team : string;
  f_status : string;
  f_notes : string
}.

(** [row.get(key, default).strip()]: [None] has no [strip]. *)
Definition field (row : Row) (key dflt : string) : result string :=
  match dict_get row key (Some dflt) with
  | Some s => Ok (str_strip s)
  | None => Raise (AttributeError "'NoneType' object has no attribute 'strip'")
  end.

Definition read_row (row : Row) : result Fields :=
  result_bind (field row "Theme" "Inconnu") (fun theme =>
  result_bind (field row "Activity" "Général") (fun activity =>
  result_bind (field row "Story" "") (fun story =>
  result_bind (field row "Sprint" "S1") (fun sprint =>
  result_bind (field row "Team" "MO") (fun team =>
  result_bind (field row "Status" "Backlog") (fun status =>
  result_bind (field row "Notes" "") (fun notes =>
  Ok (mkFields theme activity story sprint team status notes)))))))).

(** The story dict appended for a row: the note, when there is one, goes
    into the title. *)
Definition new_story (f : Fields) : Story :=
  let title :=
    match f_notes f with
    | EmptyString => f_story f
    | _ => f_story f +:+ nl +:+ nl +:+ "📝 " +:+ f_notes f
    end in
  mkStory (Some title) (Some (f_sprint f)) (Some (f_team f))
    (Some (f_status f)).

Section Loader.
(** [str.lower], whose case tables are Unicode's. *)
Variable str_lower : string -> string.

(** [a["name"]] of an activity the loader built (the entry is there). *)
Definition act_key (a : Activity) : string :=
  str_lower (default "" (act_name a)).

(** [act["stories"].append(st)] *)
Definition append_story (st : Story) (a : Activity) : Activity :=
  mkActivity (act_name a) (Some (default [] (act_stories a) ++ [st])).

(** Find the activity by lowered name, create it at the end when there is
    none, and append the story to it; the list is updated in place. *)
Definition add_story (acts : list Activity) (activity : string) (st : Story)
    : list Activity :=
  match list_find (fun a => act_key a = str_lower activity) acts with
  | Some (i, _) => alter (append_story st) i acts
  | None => acts ++ [mkActivity (Some activity) (Some [st])]
  end.

(** The dict [themes], in insertion order. *)
Definition dict_has {V} (d : list (string * V)) (key : string) : bool :=
  bool_decide (key ∈ d.*1).

Definition dict_alter {V} (f : V -> V) (key : string) (d : list (string * V))
    : list (string * V) :=
  (fun kv => if decide (kv.1 = key) then (kv.1, f kv.2) else kv) <$> d.

(** One turn of the loop over the rows, after the fields are read. *)
Definition add_row (themes : list (string * Theme)) (f : Fields)
    : list (string * Theme) :=
  let themes :=
    if dict_has themes (f_theme f) then themes
    else themes ++ [(f_theme f, mkTheme (Some (f_theme f)) (Some []))] in
  dict_alter
    (fun th => mkTheme (theme_name th)
       (Some (add_story (default [] (theme_activities th)) (f_activity f)
                (new_story f))))
    (f_theme f) themes.

Fixpoint load_rows (rows : list Row) (themes : list (string * Theme))
    : result (list (string * Theme)) :=
  match rows with
  | [] => Ok themes
  | row :: rest =>
      result_bind (read_row row) (fun f => load_rows rest (add_row themes f))
  end.

Definition load_from_csv (rows : list Row) : result Model :=
  result_bind (load_rows rows []) (fun themes =>
  Ok (mkModel (Some "R4") (Some themes.*2))).

(** *** The de-duplication rule, as the specification words it *)

(** The elements of [l] whose key was not seen before, in order. *)
Fixpoint first_seen {A} (key : A -> string) (l : list A) : list A :=
  match l with
  | [] => []
  | x :: rest => x :: filter (fun y => key y ≠ key x) (first_seen key rest)
  end.

(** A row belongs to the theme [t] when its theme name is exactly [t]. *)
Definition in_theme (t : string) (f : Fields) : Prop := f_theme f = t.

#[global] Instance in_theme_dec t f : Decision (in_theme t f).
Proof. unfold in_theme. apply _. Defined.

(** Within a theme, it belongs to the activity [a] when the names agree
    once lowered. *)
Definition in_activity (a : string) (f : Fields) : Prop :=
  str_lower (f_activity f) = str_lower a.

#[global] Instance in_activity_dec a f : Decision (in_activity a f).
Proof. unfold in_activity. apply _. Defined.

Definition merged_activity (fs : list Fields) (a : string) : Activity :=
  mkActivity (Some a) (Some (new_story <$> filter (in_activity a) fs)).

Definition merged_theme (fs : list Fields) (t : string) : Theme :=
  let own := filter (in_theme t) fs in
  mkTheme (Some t)
    (Some (merged_activity own <$> first_seen str_lower (f_activity <$> own))).

Definition merged (fs : list Fields) : Model :=
  mkModel (Some "R4")
    (Some (merged_theme fs <$> first_seen id (f_theme <$> fs))).

End Loader.

(** The columns the loader reads. *)
Definition columns : list string :=
  ["Theme"; "Activity"; "Story"; "Sprint"; "Team"; "Status"; "Notes"].

(** A row is complete when none of these columns holds [None]. *)
Definition complete (row : Row) : bool :=
  forallb (fun key => bool_decide (row !! key ≠ Some None)) columns.

(** A cell of a complete row: the default when the column is absent, the
    stripped text otherwise. *)
Definition cell (row : Row) (key dflt : string) : string :=
  match row !! key with
  | None => dflt
  | Some v => str_strip (default "" v)
  end.

Definition row_fields (row : Row) : Fields :=
  mkFields (cell row "Theme" "Inconnu") (cell row "Activity" "Général")
    (cell row "Story" "") (cell row "Sprint" "S1") (cell row "Team" "MO")
    (cell row "Status" "Backlog") (cell row "Notes" "").

Arguments ret {Sink A} a.
Arguments bind {Sink A B} m k.
Arguments raise {Sink A} e.
Arguments lift {Sink A} r.
Arguments emit_event {Sink} ev.
Arguments print {Sink} m.
Arguments sleep {Sink} millis.
Arguments for_each {Sink A} l body.
Arguments requests_post {Sink} sink_post url headers payload.
Arguments _post {Sink} sink_post url token payload.
Arguments out_get {Sink} out key.
Arguments create_frame {Sink} sink_post board_id token title x y w h.
Arguments create_shape {Sink} sink_post board_id token text x y w h shape.
Arguments create_sticky {Sink} sink_post board_id token text x y color w h.
Arguments story_body {Sink} sink_post board_id token dry_run item.
Arguments lane_body {Sink} sink_post board_id token dry_run fx fy item.
Arguments theme_body {Sink} sink_post board_id token prefix dry_run item.
Arguments render_storymap {Sink} sink_post board_id token prefix dry_run model.

Notation "x <- m ;; k" := (bind m (fun x => k))
  (at level 100, m at next level, right associativity).
Notation "m ;; k" := (bind m (fun _ => k))
  (at level 100, right associativity).

(** The three parts of a run's outcome. *)
Definition outcome {Sink A} (run : result A * list event * Sink) : result A :=
  run.1.1.
Definition trace {Sink A} (run : result A * list event * Sink) : list event :=
  run.1.2.
Definition sink_after {Sink A} (run : result A * list event * Sink) : Sink :=
  run.2.

(** ** The layout, as the specification words it

    One placed element per theme, activity and story, each with its
    position and size.  Frames stand in one row of columns, lanes are
    stacked inside their frame, tiles fill their lane row by row, four to a
    row. *)

Record box : Type := mkBox {
  box_x : pynum;
  box_y : pynum;
  box_w : Z;
  box_h : Z
}.

Inductive PlacedElement : Type :=
| FrameElement (theme_index : nat) (title : string) (b : box)
| LaneTitleElement (theme_index lane_index : nat) (title : string) (b : box)
| TileElement (theme_index lane_index story_index : nat)
    (text color marker : string) (b : box).

Definition element_box (el : PlacedElement) : box :=
  match el with
  | FrameElement _ _ b => b
  | LaneTitleElement _ _ _ b => b
  | TileElement _ _ _ _ _ _ b => b
  end.

Section Layout.
Local Open Scope Z_scope.

(** Column [i]: the origin shifted by [i] frame widths and gaps. *)
Definition frame_box (i : nat) : box :=
  mkBox (PyInt (ORIGIN_X + Z.of_nat i * (FRAME_W + COL_GAP))) (PyInt ORIGIN_Y)
    FRAME_W FRAME_H.

(** Lane [j]: its title sits below the frame's title band, one lane height
    per lane, 30 pixels in. *)
Definition lane_title_box (fx fy : pynum) (j : nat) : box :=
  mkBox (fx - FRAME_W / 2 + 200)%py (lane_title_y fy (Z.of_nat j)) 600 60.

(** Where the tiles of lane [j] start. *)
Definition lane_content_origin (fx fy : pynum) (j : nat) : pynum * pynum :=
  ((fx - FRAME_W / 2 + 300)%py, lane_y fy (Z.of_nat j)).

(** Tile [k] of a lane: row [k div 4], column [k mod 4]. *)
Definition tile_box (origin : pynum * pynum) (k : nat) : box :=
  let row := Z.of_nat k / 4 in
  let col := Z.of_nat k mod 4 in
  mkBox (origin.1 + col * (STICKY_W + STICKY_GAP_X))%py
        (origin.2 + row * (STICKY_H + STICKY_GAP_Y))%py
        STICKY_W STICKY_H.

Definition status_marker (st : Story) : string :=
  dict_get STATUS_EMOJI (default "Backlog" (story_status st)) "⬜️".

Definition layout_tile (i j : nat) (origin : pynum * pynum) (k : nat)
    (st : Story) : PlacedElement :=
  TileElement i j k (sticky_text st) (sticky_color st) (status_marker st)
    (tile_box origin k).

Definition lane_title (j : nat) (act : Activity) : string :=
  default ("Activité " +:+ str_of_Z (Z.of_nat j + 1)) (act_name act).

Definition layout_lane (i : nat) (fx fy : pynum) (j : nat) (act : Activity)
    : list PlacedElement :=
  LaneTitleElement i j (lane_title j act) (lane_title_box fx fy j)
  :: imap (layout_tile i j (lane_content_origin fx fy j))
       (default [] (act_stories act)).

Definition frame_title (prefix : string) (i : nat) (th : Theme) : string :=
  prefix +:+ " – "
  +:+ default ("Theme " +:+ str_of_Z (Z.of_nat i + 1)) (theme_name th).

Definition layout_theme (prefix : string) (i : nat) (th : Theme)
    : list PlacedElement :=
  let b := frame_box i in
  FrameElement i (frame_title prefix i th) b
  :: concat (imap (layout_lane i (box_x b) (box_y b))
       (default [] (theme_activities th))).

Definition layout (prefix : string) (model : Model) : list PlacedElement :=
  concat (imap (layout_theme prefix) (default [] (model_themes model))).

End Layout.

(** The preview line of an element. *)
Definition describe (el : PlacedElement) : message :=
  match el with
  | FrameElement _ title b => DryFrame title (box_x b) (box_y b)
  | LaneTitleElement _ _ title b => DryLane title (box_x b) (box_y b)
  | TileElement _ _ _ text color _ b =>
      DrySticky (str_take 40 text) (box_x b) (box_y b) color
  end.

(** The dispatcher of one element: its preview line, or its creation call
    followed by the confirmation line and the pause. *)
Definition dispatch {Sink} (sink_post : Sink -> request -> response * Sink)
    (board_id token : string) (dry_run : bool) (el : PlacedElement)
    : M Sink unit :=
  if dry_run then print (describe el)
  else match el with
  | FrameElement _ title b =>
      id <- create_frame sink_post board_id token title (box_x b) (box_y b)
              (box_w b) (box_h b) ;;
      print (FrameCreated title id) ;; sleep 200
  | LaneTitleElement _ _ title b =>
      id <- create_shape sink_post board_id token title (box_x b) (box_y b)
              (box_w b) (box_h b) "round_rectangle" ;;
      print (LaneCreated title id) ;; sleep 150
  | TileElement _ _ _ text color _ b =>
      id <- create_sticky sink_post board_id token text (box_x b) (box_y b)
              color (box_w b) (box_h b) ;;
      print (StickyCreated id (str_take 60 text)) ;; sleep 120
  end.

(** ** Reading placements off a run *)

Inductive kind : Type := KFrame | KLane | KTile.

#[global] Instance kind_eq_dec : EqDecision kind.
Proof. solve_decision. Defined.

Definition element_kind (el : PlacedElement) : kind :=
  match el with
  | FrameElement _ _ _ => KFrame
  | LaneTitleElement _ _ _ _ => KLane
  | TileElement _ _ _ _ _ _ _ => KTile
  end.

Definition element_position (el : PlacedElement) : pynum * pynum :=
  (box_x (element_box el), box_y (element_box el)).

(** [j[key]] of a JSON object. *)
Definition json_get (key : string) (j : json) : option json :=
  match j with
  | JObj fields => snd <$> find (fun kv => String.eqb kv.1 key) fields
  | _ => None
  end.

Definition payload_position (payload : json) : option (pynum * pynum) :=
  match json_get "position" payload with
  | Some pos =>
      match json_get "x" pos, json_get "y" pos with
      | Some (JNum x), Some (JNum y) => Some (x, y)
      | _, _ => None
      end
  | None => None
  end.

(** Every key of a JSON document, at any depth. *)
Fixpoint json_keys (j : json) : list string :=
  match j with
  | JObj fields =>
      (fix go (l : list (string * json)) : list string :=
         match l with
         | [] => []
         | (k, v) :: rest => k :: json_keys v ++ go rest
         end) fields
  | _ => []
  end.

(** The kind of element an endpoint of the board creates. *)
Definition endpoint_kind (board_id url : string) : option kind :=
  if String.eqb url (boards_url board_id +:+ "/frames") then Some KFrame
  else if String.eqb url (boards_url board_id +:+ "/shapes") then Some KLane
  else if String.eqb url (boards_url board_id +:+ "/sticky_notes")
  then Some KTile
  else None.

(** What an event places, if anything: a preview line names the element it
    would create, a POST asks the Sink to create one. *)
Definition placement_of_event (board_id : string) (ev : event)
    : option (kind * (pynum * pynum)) :=
  match ev with
  | Printed (DryFrame _ x y) => Some (KFrame, (x, y))
  | Printed (DryLane _ x y) => Some (KLane, (x, y))
  | Printed (DrySticky _ x y _) => Some (KTile, (x, y))
  | Posted rq _ =>
      match endpoint_kind board_id (req_url rq),
            payload_position (req_body rq) with
      | Some k, Some p => Some (k, p)
      | _, _ => None
      end
  | _ => None
  end.

Definition placements (board_id : string) (t : list event)
    : list (kind * (pynum * pynum)) :=
  omap (placement_of_event board_id) t.

(** The positions of the placements of one kind. *)
Definition positions_of (k : kind) (ps : list (kind * (pynum * pynum)))
    : list (pynum * pynum) :=
  snd <$> filter (fun p => p.1 = k) ps.

(** A POST the Sink refused: status 400 or above. *)
Definition refused_post (ev : event) : bool :=
  match ev with
  | Posted _ rs => (400 <=? status_code rs)%Z
  | _ => false
  end.

(** The error [_post] raises for a refused POST. *)
Definition refusal (ev : event) : exn :=
  match ev with
  | Posted rq rs => RuntimeError (post_failed (req_url rq) rs)
  | _ => RuntimeError ""
  end.


(** ** Notions used to state the properties *)

Section Notions.
Local Open Scope Z_scope.

(** Where [sticky_grid_positions] puts index [i] with [columns] per row. *)
Definition grid_cell (start_x start_y : pynum) (columns i : Z)
    : pynum * pynum :=
  ((start_x + PyInt (i mod columns * (STICKY_W + STICKY_GAP_X)))%py,
   (start_y + PyInt (i / columns * (STICKY_H + STICKY_GAP_Y)))%py).

End Notions.

(** The element as the trace shows it: its kind and its position. *)
Definition placed (el : PlacedElement) : kind * (pynum * pynum) :=
  (element_kind el, element_position el).

(** The creation call of an element, and what follows it on success. *)
Definition creation_request (board_id token : string) (el : PlacedElement)
    : request :=
  let position :=
    ("position", JObj [("x", JNum (box_x (element_box el)));
                       ("y", JNum (box_y (element_box el)))]) in
  match el with
  | FrameElement _ title _ =>
      mkRequest (boards_url board_id +:+ "/frames") (_auth_headers token)
        (JObj [("data", JObj [("title", JStr title)]); position])
  | LaneTitleElement _ _ title _ =>
      mkRequest (boards_url board_id +:+ "/shapes") (_auth_headers token)
        (JObj [("data", JObj [("content", JStr title);
                              ("shape", JStr "round_rectangle")]);
               position;
               ("style", JObj [("fontSize", JNum 28%Z)])])
  | TileElement _ _ _ text color _ _ =>
      mkRequest (boards_url board_id +:+ "/sticky_notes") (_auth_headers token)
        (JObj [("data", JObj [("content", JStr text)]);
               ("style", JObj [("fillColor", JStr color);
                               ("textAlign", JStr "left")]);
               position])
  end.

Definition confirmation (el : PlacedElement) (id : option string)
    : list event :=
  match el with
  | FrameElement _ title _ => [Printed (FrameCreated title id); Slept 200]
  | LaneTitleElement _ _ title _ => [Printed (LaneCreated title id); Slept 150]
  | TileElement _ _ _ text _ _ _ =>
      [Printed (StickyCreated id (str_take 60 text)); Slept 120]
  end.

(** No event of the trace is a refused POST. *)
Definition accepted (t : list event) : Prop :=
  Forall (fun ev => refused_post ev = false) t.

(** A run is fail-fast when a refused POST can only be its last event, and
    then the run ends with the error of that POST. *)
Definition fail_fast {Sink A} (run : result A * list event * Sink) : Prop :=
  accepted (trace run)
  \/ exists pre ev,
       trace run = pre ++ [ev] /\ accepted pre /\ refused_post ev = true
       /\ outcome run = Raise (refusal ev).

(** An event that is not a POST, or a POST to one of the three creation
    endpoints of the board. *)
Definition creation_only (board_id : string) (ev : event) : Prop :=
  match ev with
  | Posted rq _ => is_Some (endpoint_kind board_id (req_url rq))
  | _ => True
  end.

(** The requests sent during a run, in order. *)
Definition requests (t : list event) : list request :=
  omap (fun ev => match ev with Posted rq _ => Some rq | _ => None end) t.

(** The dict [themes] the rule describes: the merged themes under their
    names. *)
Definition merged_dict (str_lower : string -> string) (fs : list Fields)
    : list (string * Theme) :=
  (fun t => (t, merged_theme str_lower fs t))
    <$> first_seen id (f_theme <$> fs).

(** The place of an element in the traversal: its theme, then 0 for the
    frame or one more than its lane, then 0 for the lane's title or one more
    than its story. *)
Definition element_index (el : PlacedElement) : nat * nat * nat :=
  match el with
  | FrameElement i _ _ => (i, 0, 0)
  | LaneTitleElement i j _ _ => (i, S j, 0)
  | TileElement i j k _ _ _ _ => (i, S j, S k)
  end.

(** Lexicographic order on these triples. *)
Definition index_lt (a b : nat * nat * nat) : Prop :=
  a.1.1 < b.1.1
  \/ (a.1.1 = b.1.1
      /\ (a.1.2 < b.1.2 \/ (a.1.2 = b.1.2 /\ a.2 < b.2))).

(** [el1] comes before [el2] in the traversal: a frame before its lanes and
    tiles, a lane's title before its tiles, lanes and tiles in input order,
    and everything of a theme before the next theme. *)
Definition precedes (el1 el2 : PlacedElement) : Prop :=
  index_lt (element_index el1) (element_index el2).



(** ** The console

    [print] writes the text of the message and a newline. *)

Definition newlines (s : string) : nat :=
  length (filter (fun a => a = ascii_of_nat 10) (list_ascii_of_string s)).

(** The number of lines a run writes. *)
Definition console_lines (repr_float : float -> string) (t : list event)
    : nat :=
  sum_list
    ((fun ev =>
        match ev with
        | Printed m => S (newlines (message_text repr_float m))
        | _ => 0%nat
        end) <$> t).

(** The text a run writes. *)
Definition console_text (repr_float : float -> string) (t : list event)
    : string :=
  fold_right
    (fun ev rest =>
       match ev with
       | Printed m => message_text repr_float m +:+ nl +:+ rest
       | _ => rest
       end) "" t.

(** [repr] of the floats the placement arithmetic yields: those without a
    fractional part and below 1e16 in magnitude print as the integer
    followed by ".0".  Other finite floats need the shortest-digits
    algorithm and are left unrendered here. *)
Definition integral_value (f : float) : option Z :=
  match Prim2SF f with
  | S754_zero _ => Some 0%Z
  | S754_finite sign m e =>
      let magnitude :=
        if (0 <=? e)%Z then Some (Z.pos m * 2 ^ e)%Z
        else if (Z.pos m mod 2 ^ (- e) =? 0)%Z
             then Some (Z.pos m / 2 ^ (- e))%Z
             else None in
      (fun z => if sign then (- z)%Z else z) <$> magnitude
  | _ => None
  end.

Definition repr_integral_float (f : float) : string :=
  match Prim2SF f with
  | S754_zero sign => if sign then "-0.0" else "0.0"
  | S754_infinity sign => if sign then "-inf" else "inf"
  | S754_nan => "nan"
  | S754_finite _ _ _ =>
      match integral_value f with
      | Some z =>
          if (Z.abs z <? 10 ^ 16)%Z then str_of_Z z +:+ ".0" else ""
      | None => ""
      end
  end.

(** ** Concrete inputs *)

(** A Sink that answers from a script, one response per call, and with
    [fallback] once the script is used up: the test double of the concrete
    runs below. *)
Definition scripted_sink : Type := list response.

Definition scripted_post (fallback : response) (s : scripted_sink)
    (rq : request) : response * scripted_sink :=
  match s with
  | [] => (fallback, [])
  | rs :: rest => (rs, rest)
  end.

Definition created (id : string) : response :=
  mkResponse 201 "" (Some (JsonObject {[ "id" := id ]})).

Definition refused (code : Z) (body : string) : response :=
  mkResponse code body None.

(** A row of a file with the columns Story, Team and Notes only. *)
Definition sample_row : Row :=
  {[ "Story" := Some " Relancer le client "; "Team" := Some "IHM";
     "Notes" := Some "" ]}.

Definition small_model : Model :=
  mkModel (Some "R4") (Some
    [ theme "T1" [ activity "A1" [ story "s1" "S1" "IHM" "Backlog" ] ] ]).

(** A Sink that creates the first element and refuses the second. *)
Definition failing_script : scripted_sink :=
  [ created "f1"; refused 500 "boom" ].


(** Rows of a file with all seven columns. *)
Definition full_row (theme activity story : string) : Row :=
  {[ "Theme" := Some theme; "Activity" := Some activity;
     "Story" := Some story; "Sprint" := Some "S2"; "Team" := Some "BPM";
     "Status" := Some "En cours"; "Notes" := Some "" ]}.

Definition sample_rows : list Row :=
  [ full_row "Paiement" "Saisie" "a"; full_row "paiement" "Saisie" "b";
    full_row "Paiement" "SAISIE " "c"; full_row "Paiement" "Suivi" "d" ].

(** ** The command line *)

(** The namespace [parse_args] returns. *)
Module Args.
Record Namespace : Type := mk {
  board_id : option string;
  token : option string;
  csv_path : option string;
  prefix : string;
  dry : bool
}.
End Args.

(** The options the command line gives, [None] for an option that is left
    out.  How argparse reads the argument vector itself (abbreviated option
    names, [-h], usage errors) is outside the model. *)
Record CommandLine : Type := mkCommandLine {
  opt_board : option string;
  opt_token : option string;
  opt_csv : option string;
  opt_prefix : option string;
  opt_dry_run : bool
}.

(** An option that is given is taken as it is; one that is left out takes
    the default of its [add_argument]. *)
Definition option_or {A} (given : option string) (dflt : A)
    (some : string -> A) : A :=
  match given with
  | Some v => some v
  | None => dflt
  end.

(** [parse_args()], with [os.getenv] read from [environ]. *)
Definition parse_args (environ : gmap string string) (cl : CommandLine)
    : Args.Namespace :=
  Args.mk
    (option_or (opt_board cl) (environ !! "MIRO_BOARD_ID") Some)
    (option_or (opt_token cl) (environ !! "MIRO_TOKEN") Some)
    (option_or (opt_csv cl) None Some)
    (option_or (opt_prefix cl) "R4" id)
    (opt_dry_run cl).

(** Truth value of an optional string: [None] and the empty string are
    false. *)
Definition truthy (v : option string) : bool :=
  match v with
  | Some (String _ _) => true
  | _ => false
  end.

(** The lines [main] prints itself. *)
Inductive notice : Type :=
| LoadingCsv (csv_path : string)
| UsingDefaultModel
| Finished.

Definition notice_text (n : notice) : string :=
  match n with
  | LoadingCsv csv_path => "Chargement du modèle depuis CSV: " +:+ csv_path
  | UsingDefaultModel => "Utilisation du modèle par défaut R4 (projet IT CALF)"
  | Finished => "Terminé."
  end.

(** The steps of the script: a line of [main], or a step of the renderer. *)
Inductive main_event : Type :=
| Announced (n : notice)
| Rendered (ev : event).

(** How the script ends: normally, with [SystemExit], with an exception of
    the loader or the renderer that nothing catches, or with the exception
    of a file that cannot be opened or read as CSV (OSError and the like). *)
Inductive exit : Type :=
| Completed
| SystemExit (msg : string)
| Uncaught (e : exn)
| Unreadable.

(** The messages of the two [SystemExit]. *)
Definition board_missing : string :=
  "Veuillez fournir --board ou définir MIRO_BOARD_ID".
Definition token_missing : string :=
  "Veuillez fournir --token ou définir MIRO_TOKEN".

Section Main.
Variable Sink : Type.
Variable sink_post : Sink -> request -> response * Sink.
Variable str_lower : string -> string.
(** The rows [csv.DictReader] yields for the file at a path; [None] when the
    file cannot be opened or read. *)
Variable read_csv : string -> option (list Row).

(** [model = load_from_csv(args.csv_path)] or [model = DEFAULT_MODEL], after
    the line that announces which. *)
Definition choose_model (csv_path : option string)
    : notice * (exit + Model) :=
  if truthy csv_path then
    let path := default "" csv_path in
    (LoadingCsv path,
     match read_csv path with
     | None => inl Unreadable
     | Some rows =>
         match load_from_csv str_lower rows with
         | Ok model => inr model
         | Raise e => inl (Uncaught e)
         end
     end)
  else (UsingDefaultModel, inr DEFAULT_MODEL).

(** [main()], from the namespace that its first statement,
    [args = parse_args()], has returned.  argparse may end the script
    inside that statement (after printing the help for [-h], or the usage
    for arguments it refuses): that ending is not modelled. *)
Definition main (args : Args.Namespace) (s : Sink)
    : exit * list main_event * Sink :=
  if negb (truthy (Args.board_id args)) then
    (SystemExit board_missing, [], s)
  else if negb (truthy (Args.token args)) then
    (SystemExit token_missing, [], s)
  else
    let '(line, loaded) := choose_model (Args.csv_path args) in
    match loaded with
    | inl failure => (failure, [Announced line], s)
    | inr model =>
        let '(r, t, s') :=
          render_storymap sink_post (default "" (Args.board_id args))
            (default "" (Args.token args)) (Args.prefix args) (Args.dry args)
            model s in
        match r with
        | Ok _ =>
            (Completed,
             Announced line :: (Rendered <$> t) ++ [Announced Finished], s')
        | Raise e => (Uncaught e, Announced line :: (Rendered <$> t), s')
        end
    end.

End Main.

Arguments choose_model str_lower read_csv csv_path : assert.
Arguments main {Sink} sink_post str_lower read_csv args s.

(** The steps of the renderer inside a run of the script. *)
Definition rendered (t : list main_event) : list event :=
  omap (fun ev => match ev with Rendered e => Some e | _ => None end) t.

(** ** Notions for runs in apply mode and for loaded story maps *)

(** The Sink accepted a call and answered with a JSON object. *)
Definition answered (rs : response) : bool :=
  negb (400 <=? status_code rs)%Z
  && match resp_json rs with
     | Some (JsonObject _) => true
     | _ => false
     end.

(** The identifier a response gives the element: the entry [id] of its
    object, if any. *)
Definition response_id (rs : response) : option string :=
  match resp_json rs with
  | Some (JsonObject entries) => entries !! "id"
  | _ => None
  end.

(** What the creation of one element leaves in the trace: the call, the
    confirmation line with the identifier, the pause. *)
Definition creation_block (board_id token : string) (el : PlacedElement)
    (rs : response) : list event :=
  Posted (creation_request board_id token el) rs
  :: confirmation el (response_id rs).

(** The exception a call ends with when its answer is not [answered]: that
    of [_post] for a status of 400 or above, that of [resp.json()] for a
    body that is not JSON, that of [out.get] for JSON that is not an
    object. *)
Definition failure_of (rq : request) (rs : response) : exn :=
  if (400 <=? status_code rs)%Z
  then RuntimeError (post_failed (req_url rq) rs)
  else match resp_json rs with
       | Some (JsonOther type_name) =>
           AttributeError
             ("'" +:+ type_name +:+ "' object has no attribute 'get'")
       | _ => JSONDecodeError (resp_text rs)
       end.

(** The time a run pauses, in milliseconds. *)
Definition paused (t : list event) : Z :=
  foldr (fun ev total =>
           match ev with
           | Slept millis => (millis + total)%Z
           | _ => total
           end) 0%Z t.

(** The number of stories of a story map. *)
Definition activity_stories (a : Activity) : nat :=
  length (default [] (act_stories a)).

Definition theme_stories (th : Theme) : nat :=
  sum_list (activity_stories <$> default [] (theme_activities th)).

Definition model_stories (m : Model) : nat :=
  sum_list (theme_stories <$> default [] (model_themes m)).




(** ** Notions for names, printed texts and cells *)

(** The title a [print] call gives for a frame, and for a lane. *)
Definition frame_title_of (ev : event) : option string :=
  match ev with
  | Printed (DryFrame title _ _) | Printed (FrameCreated title _) => Some title
  | _ => None
  end.

Definition lane_title_of (ev : event) : option string :=
  match ev with
  | Printed (DryLane title _ _) | Printed (LaneCreated title _) => Some title
  | _ => None
  end.

(** The title of an element that is a frame, and of one that is a lane
    title. *)
Definition frame_title_in (el : PlacedElement) : option string :=
  match el with
  | FrameElement _ title _ => Some title
  | _ => None
  end.

Definition lane_title_in (el : PlacedElement) : option string :=
  match el with
  | LaneTitleElement _ _ title _ => Some title
  | _ => None
  end.

(** [s.startswith(p)] *)
Definition starts_with (p s : string) : bool := String.prefix p s.

(** The code points [str.strip] keeps. *)
Definition strip_points (cs : list N) : list N :=
  rev (lstrip_points (rev (lstrip_points cs))).

(** A string is well formed when it is the UTF-8 encoding of code points of
    Unicode, as every Python [str] is. *)
Definition well_formed (s : string) : bool :=
  String.eqb (Utf8.encode (Utf8.decode s)) s
  && forallb (fun c => (c <? 1114112)%N) (Utf8.decode s).

(** A string of ASCII white space: blanks, tabs, line ends and the like. *)
Definition blank (s : string) : bool :=
  forallb (fun a => is_space (N_of_ascii a) && (N_of_ascii a <? 128)%N)
    (list_ascii_of_string s).

(** [v'] is [v] with blanks around it. *)
Definition padded (v v' : string) : Prop :=
  exists before after,
    blank before = true /\ blank after = true
    /\ v' = before +:+ v +:+ after.

(** Two rows with the same columns whose cells agree up to the blanks around
    them. *)
Definition same_cells (row row' : Row) : Prop :=
  forall key,
    match row !! key, row' !! key with
    | Some (Some v), Some (Some v') => well_formed v = true /\ padded v v'
    | cell, cell' => cell = cell'
    end.
(** * Properties *)

(** ** Lists and strings *)

Lemma filter_none {A} (P : A -> Prop) `{!forall x, Decision (P x)}
    (l : list A) :
  Forall (fun x => ¬ P x) l -> filter P l = [].
Proof.
  induction 1 as [|x l Hx _ IH]; [done|]. by rewrite filter_cons_False.
Qed.

Lemma filter_all {B} (P : B -> Prop) `{!forall x, Decision (P x)}
    (l : list B) :
  Forall P l -> filter P l = l.
Proof.
  induction 1 as [|x l Hx _ IH]; [done|].
  by rewrite filter_cons_True, IH.
Qed.

Lemma filter_snoc {A} (P : A -> Prop) `{!forall x, Decision (P x)}
    (l : list A) (x : A) :
  filter P (l ++ [x]) = if decide (P x) then filter P l ++ [x] else filter P l.
Proof.
  rewrite filter_app, filter_cons, filter_nil.
  case_decide; [done | by rewrite app_nil_r].
Qed.

Lemma list_elem_of_concat {A} (x : A) (ls : list (list A)) :
  x ∈ concat ls <-> exists l, x ∈ l /\ l ∈ ls.
Proof.
  induction ls as [|l ls IH]; cbn [concat].
  - split; [by intros ?%elem_of_nil | by intros (l & _ & ?%elem_of_nil)].
  - rewrite elem_of_app, IH. split.
    + intros [Hx|(l' & Hx & Hl)]; [exists l | exists l'];
        rewrite elem_of_cons; auto.
    + intros (l' & Hx & [->|Hl]%elem_of_cons); [by left | right; eauto].
Qed.

Lemma Forall_imap {A B} (P : B -> Prop) (f : nat -> A -> B) (l : list A) :
  (forall i a, P (f i a)) -> Forall P (imap f l).
Proof.
  intros Hf. apply Forall_forall. intros b Hb.
  apply elem_of_lookup_imap in Hb as (i & a & -> & _). apply Hf.
Qed.

Lemma append_inv_head (p a b : string) : p +:+ a = p +:+ b -> a = b.
Proof. induction p as [|c p IH]; cbn; [done|]. intros [=]. auto. Qed.

Lemma append_empty_r (a : string) : a +:+ "" = a.
Proof.
  induction a as [|c a IH]; [done|].
  change (String c (a +:+ "") = String c a). by rewrite IH.
Qed.


(** ** Laws of the run monad, pointwise *)

(** Name the Sink's answer to the request of the goal, and the Sink after
    it. *)
Ltac sink_answer rs s' :=
  match goal with
  | |- context [?post ?s (mkRequest ?url ?headers ?payload)] =>
      destruct (post s (mkRequest url headers payload)) as [rs s']
  | |- context [?post ?s (creation_request ?b ?t ?el)] =>
      destruct (post s (creation_request b t el)) as [rs s']
  end;
  cbn [fst snd].

(** Open a computation down to its primitive steps. *)
Ltac unfold_run :=
  unfold create_frame, create_shape, create_sticky, _post, requests_post,
    bind, raise, ret, print, sleep, emit_event.

Section MonadLaws.
Context {Sink : Type}.
Implicit Types s : Sink.

Lemma bind_ret_l {A B} (a : A) (k : A -> M Sink B) s :
  bind (ret a) k s = k a s.
Proof. unfold bind, ret. by destruct (k a s) as [[r t] s']. Qed.

Lemma bind_lift_ok {A B} (a : A) (k : A -> M Sink B) s :
  bind (lift (Ok a)) k s = k a s.
Proof. apply bind_ret_l. Qed.

Lemma bind_ret_r {A} (m : M Sink A) s : bind m ret s = m s.
Proof.
  unfold bind, ret. destruct (m s) as [[[a|e] t] s']; [|done].
  by rewrite app_nil_r.
Qed.

Lemma bind_assoc {A B C} (m : M Sink A) (k : A -> M Sink B)
    (k' : B -> M Sink C) s :
  bind (bind m k) k' s = bind m (fun a => bind (k a) k') s.
Proof.
  unfold bind. destruct (m s) as [[[a|e] t1] s1]; [|done].
  destruct (k a s1) as [[[b|e] t2] s2]; [|done].
  destruct (k' b s2) as [[r t3] s3]. by rewrite app_assoc.
Qed.

Lemma bind_ext {A B} (m m' : M Sink A) (k k' : A -> M Sink B) s :
  m s = m' s -> (forall a s1, k a s1 = k' a s1) -> bind m k s = bind m' k' s.
Proof.
  intros Hm Hk. unfold bind. rewrite Hm.
  destruct (m' s) as [[[a|e] t1] s1]; [|done]. by rewrite Hk.
Qed.

Lemma for_each_ext {A} (l : list A) (f g : A -> M Sink unit) s :
  (forall a s1, f a s1 = g a s1) -> for_each l f s = for_each l g s.
Proof.
  intros Hfg. revert s. induction l as [|a l IH]; intros s; [done|].
  cbn [for_each]. apply bind_ext; [apply Hfg | intros _ s1; apply IH].
Qed.

Lemma for_each_app {A} (l1 l2 : list A) (f : A -> M Sink unit) s :
  for_each (l1 ++ l2) f s = bind (for_each l1 f) (fun _ => for_each l2 f) s.
Proof.
  revert s. induction l1 as [|a l1 IH]; intros s.
  - cbn [for_each app]. by rewrite bind_ret_l.
  - cbn [for_each app]. rewrite bind_assoc.
    apply bind_ext; [done | intros _ s1; apply IH].
Qed.

(** A loop whose every turn runs a block of steps is the loop over the
    blocks laid end to end. *)
Lemma for_each_blocks {A B C} (g : nat -> A -> B) (h : nat -> A -> list C)
    (body : B -> M Sink unit) (step : C -> M Sink unit) (l : list A) s :
  (forall i a s1, body (g i a) s1 = for_each (h i a) step s1) ->
  for_each (imap g l) body s = for_each (concat (imap h l)) step s.
Proof.
  revert g h s. induction l as [|a l IH]; intros g h s Hb; [done|].
  cbn [imap for_each concat]. rewrite for_each_app.
  apply bind_ext; [apply Hb|]. intros _ s1. apply IH.
  intros i a' s2. apply Hb.
Qed.

End MonadLaws.

(** ** Placement functions *)

Section PlacementFacts.
Local Open Scope Z_scope.

Lemma sticky_grid_loop_spec start_x start_y columns idxs acc :
  columns ≠ 0 ->
  sticky_grid_loop start_x start_y columns idxs acc
  = Ok (acc ++ (grid_cell start_x start_y columns <$> idxs)).
Proof.
  intros Hc. revert acc. induction idxs as [|i idxs IH]; intros acc.
  - cbn. by rewrite app_nil_r.
  - cbn [sticky_grid_loop]. unfold py_floordiv, py_mod.
    destruct (Z.eqb_spec columns 0) as [?|_]; [done|].
    cbn [result_bind]. rewrite IH, <- app_assoc. reflexivity.
Qed.

Lemma py_range_of_nat (n : nat) :
  py_range (Z.of_nat n) = Z.of_nat <$> seq 0 n.
Proof.
  unfold py_range, seqZ. rewrite Nat2Z.id. apply list_fmap_ext.
  intros _ i _. lia.
Qed.

Lemma sticky_grid_positions_spec start_x start_y columns (n : nat) :
  columns ≠ 0 ->
  sticky_grid_positions start_x start_y columns (Z.of_nat n)
  = Ok ((fun k => grid_cell start_x start_y columns (Z.of_nat k)) <$> seq 0 n).
Proof.
  intros Hc. unfold sticky_grid_positions.
  rewrite sticky_grid_loop_spec by done.
  by rewrite py_range_of_nat, <- list_fmap_compose.
Qed.

(** With no index to place, a zero column count is never divided by. *)
Lemma sticky_grid_positions_empty start_x start_y columns count :
  count <= 0 -> sticky_grid_positions start_x start_y columns count = Ok [].
Proof.
  intros Hn. unfold sticky_grid_positions, py_range.
  by rewrite seqZ_nil.
Qed.

Lemma sticky_grid_positions_zero_columns start_x start_y count :
  0 < count ->
  sticky_grid_positions start_x start_y 0 count
  = Raise ZeroDivisionError.
Proof.
  intros Hn. unfold sticky_grid_positions, py_range.
  by rewrite seqZ_cons.
Qed.

Lemma compute_frame_origin_spec (i : nat) :
  compute_frame_origin (Z.of_nat i) 0
  = (box_x (frame_box i), box_y (frame_box i)).
Proof. reflexivity. Qed.

End PlacementFacts.

(** ** The renderer dispatches the layout, element by element *)

Section Refinement.
Context {Sink : Type} (sink_post : Sink -> request -> response * Sink).
Variables (board_id token prefix : string) (dry_run : bool).
Implicit Types s : Sink.

Lemma story_body_dispatch i j origin k st s :
  story_body sink_post board_id token dry_run
    (st, grid_cell origin.1 origin.2 4 (Z.of_nat k)) s
  = dispatch sink_post board_id token dry_run (layout_tile i j origin k st) s.
Proof. unfold story_body, dispatch, grid_cell. by destruct dry_run. Qed.

Lemma stories_dispatch i j origin (stories : list Story) n s :
  for_each
    (zip stories
       ((fun k => grid_cell origin.1 origin.2 4 (Z.of_nat k))
          <$> seq n (length stories)))
    (story_body sink_post board_id token dry_run) s
  = for_each (imap (fun k => layout_tile i j origin (n + k)) stories)
      (dispatch sink_post board_id token dry_run) s.
Proof.
  revert n s. induction stories as [|st stories IH]; intros n s; [done|].
  cbn [length seq fmap list_fmap zip zip_with imap for_each].
  apply bind_ext.
  - rewrite Nat.add_0_r. apply story_body_dispatch.
  - intros _ s1. rewrite IH. f_equal. apply imap_ext.
    intros k st' _. cbn. f_equal. lia.
Qed.

Lemma lane_body_dispatch i fx fy j act s :
  lane_body sink_post board_id token dry_run fx fy (Z.of_nat j, act) s
  = for_each (layout_lane i fx fy j act)
      (dispatch sink_post board_id token dry_run) s.
Proof.
  unfold lane_body, layout_lane. cbn [for_each].
  apply bind_ext.
  { unfold dispatch, lane_title, lane_title_box. by destruct dry_run. }
  intros _ s1. destruct (default [] (act_stories act)) as [|st stories] eqn:Hst;
    [done|].
  rewrite sticky_grid_positions_spec by done.
  rewrite bind_lift_ok.
  apply (stories_dispatch i j (lane_content_origin fx fy j) (st :: stories) 0).
Qed.

Lemma theme_body_dispatch i th s :
  theme_body sink_post board_id token prefix dry_run (Z.of_nat i, th) s
  = for_each (layout_theme prefix i th)
      (dispatch sink_post board_id token dry_run) s.
Proof.
  unfold theme_body, layout_theme. rewrite compute_frame_origin_spec.
  cbn [for_each]. apply bind_ext.
  { unfold dispatch, frame_title. by destruct dry_run. }
  intros _ s1. unfold enumerate.
  apply (for_each_blocks (fun j a => (Z.of_nat j, a))).
  intros j act s2. apply lane_body_dispatch.
Qed.

(** The renderer is the dispatcher run over the layout. *)
Lemma render_storymap_dispatch model s :
  render_storymap sink_post board_id token prefix dry_run model s
  = for_each (layout prefix model)
      (dispatch sink_post board_id token dry_run) s.
Proof.
  unfold render_storymap, layout, enumerate.
  apply (for_each_blocks (fun i th => (Z.of_nat i, th))).
  intros i th s1. apply theme_body_dispatch.
Qed.

End Refinement.

(** ** What one dispatch leaves in the trace *)

Lemma endpoint_kind_frames board_id :
  endpoint_kind board_id (boards_url board_id +:+ "/frames") = Some KFrame.
Proof. unfold endpoint_kind. by rewrite String.eqb_refl. Qed.

Lemma endpoint_kind_shapes board_id :
  endpoint_kind board_id (boards_url board_id +:+ "/shapes") = Some KLane.
Proof.
  unfold endpoint_kind. rewrite String.eqb_refl.
  destruct (String.eqb_spec (boards_url board_id +:+ "/shapes")
              (boards_url board_id +:+ "/frames")) as [H|_]; [|done].
  by apply append_inv_head in H.
Qed.

Lemma endpoint_kind_sticky_notes board_id :
  endpoint_kind board_id (boards_url board_id +:+ "/sticky_notes")
  = Some KTile.
Proof.
  unfold endpoint_kind. rewrite String.eqb_refl.
  destruct (String.eqb_spec (boards_url board_id +:+ "/sticky_notes")
              (boards_url board_id +:+ "/frames")) as [H|_];
    [by apply append_inv_head in H|].
  destruct (String.eqb_spec (boards_url board_id +:+ "/sticky_notes")
              (boards_url board_id +:+ "/shapes")) as [H|_]; [|done].
  by apply append_inv_head in H.
Qed.

Section Dispatch.
Context {Sink : Type} (sink_post : Sink -> request -> response * Sink).
Variables (board_id token : string).
Implicit Types s : Sink.

Lemma dispatch_dry el s :
  dispatch sink_post board_id token true el s
  = (Ok tt, [Printed (describe el)], s).
Proof. reflexivity. Qed.

(** In apply mode a dispatch is one POST; what follows depends on the
    answer alone. *)
Lemma dispatch_apply el s :
  let rq := creation_request board_id token el in
  let rs := (sink_post s rq).1 in
  let s' := (sink_post s rq).2 in
  dispatch sink_post board_id token false el s
  = if (400 <=? status_code rs)%Z
    then (Raise (RuntimeError (post_failed (req_url rq) rs)),
          [Posted rq rs], s')
    else match resp_json rs with
         | Some (JsonObject out) =>
             (Ok tt, Posted rq rs :: confirmation el (out !! "id"), s')
         | Some (JsonOther type_name) =>
             (Raise (AttributeError
                       ("'" +:+ type_name
                        +:+ "' object has no attribute 'get'")),
              [Posted rq rs], s')
         | None => (Raise (JSONDecodeError (resp_text rs)), [Posted rq rs], s')
         end.
Proof.
  destruct el; cbn zeta; unfold dispatch, creation_request; unfold_run;
    cbn [element_box req_url]; sink_answer rs s';
    destruct (400 <=? status_code rs)%Z; try done;
    destruct (resp_json rs) as [[out|type_name]|]; done.
Qed.

Lemma placement_of_creation_request el rs :
  placement_of_event board_id (Posted (creation_request board_id token el) rs)
  = Some (placed el).
Proof.
  destruct el; cbn [placement_of_event creation_request req_url req_body];
    rewrite ?endpoint_kind_frames, ?endpoint_kind_shapes,
      ?endpoint_kind_sticky_notes; reflexivity.
Qed.

Lemma placements_confirmation el id :
  placements board_id (confirmation el id) = [].
Proof. by destruct el. Qed.

(** Dry or not, accepted or refused, a dispatch places its element. *)
Lemma placements_dispatch dry_run el s :
  placements board_id (trace (dispatch sink_post board_id token dry_run el s))
  = [placed el].
Proof.
  destruct dry_run.
  - rewrite dispatch_dry. by destruct el.
  - rewrite dispatch_apply. cbn zeta.
    sink_answer rs s'.
    assert (Hp := placement_of_creation_request el rs).
    destruct (400 <=? status_code rs)%Z;
      [|destruct (resp_json rs) as [[out|type_name]|]];
      unfold trace, placements; cbn [fst snd omap list_omap];
      rewrite Hp; [done| |done|done].
    fold (placements board_id (confirmation el (out !! "id"))).
    by rewrite placements_confirmation.
Qed.

End Dispatch.

(** ** Whole runs of the dispatcher *)

Section Runs.
Context {Sink : Type} (sink_post : Sink -> request -> response * Sink).
Variables (board_id token : string).
Implicit Types s : Sink.

Lemma bind_run {A B} (m : M Sink A) (k : A -> M Sink B) s :
  bind m k s
  = match m s with
    | (Ok a, t1, s1) =>
        (outcome (k a s1), t1 ++ trace (k a s1), sink_after (k a s1))
    | (Raise e, t1, s1) => (Raise e, t1, s1)
    end.
Proof.
  unfold bind. destruct (m s) as [[[a|e] t1] s1]; [|done].
  by destruct (k a s1) as [[r t2] s2].
Qed.

(** Preview: one line per element, nothing sent, the Sink untouched. *)
Lemma for_each_dispatch_dry (els : list PlacedElement) s :
  for_each els (dispatch sink_post board_id token true) s
  = (Ok tt, (fun el => Printed (describe el)) <$> els, s).
Proof.
  induction els as [|el els IH]; [done|].
  cbn [for_each]. rewrite bind_run, dispatch_dry, IH. reflexivity.
Qed.

(** The elements a run places are those of the list, in order, up to the
    point where the run stops. *)
Lemma placements_for_each dry_run (els : list PlacedElement) s :
  let run := for_each els (dispatch sink_post board_id token dry_run) s in
  placements board_id (trace run) `prefix_of` (placed <$> els)
  /\ (outcome run = Ok tt -> placements board_id (trace run) = placed <$> els).
Proof.
  cbn zeta. revert s. induction els as [|el els IH]; intros s.
  { split; [apply prefix_nil | done]. }
  cbn [for_each]. rewrite bind_run.
  assert (Hp := placements_dispatch sink_post board_id token dry_run el s).
  destruct (dispatch sink_post board_id token dry_run el s) as [[[[]|e] t1] s1].
  - destruct (IH s1) as [IH1 IH2]. unfold trace, outcome in *.
    cbn [fst snd] in *. unfold placements in *. rewrite omap_app, Hp.
    cbn [fmap list_fmap app]. split; [by apply prefix_cons|].
    intros Hok. f_equal. by apply IH2.
  - unfold trace, outcome in *. cbn [fst snd] in *. rewrite Hp.
    split; [|done]. apply prefix_cons, prefix_nil.
Qed.

Lemma fail_fast_bind {A B} (m : M Sink A) (k : A -> M Sink B) s :
  fail_fast (m s) -> (forall a s1, fail_fast (k a s1)) ->
  fail_fast (bind m k s).
Proof.
  intros Hm Hk. rewrite bind_run.
  destruct (m s) as [[[a|e] t1] s1].
  2:{ destruct Hm as [?|(pre & ev & ? & ? & ? & [= ->])]; [by left|].
      right. by exists pre, ev. }
  assert (accepted t1) as Ht1.
  { destruct Hm as [?|(pre & ev & _ & _ & _ & ?)]; done. }
  destruct (Hk a s1) as [Ht2|(pre & ev & Ht2 & Hpre & Hev & Hout)].
  - left. by apply Forall_app.
  - right. exists (t1 ++ pre), ev. unfold trace, outcome in *.
    cbn [fst snd] in *.
    rewrite Ht2, app_assoc. repeat split; [by apply Forall_app|done..].
Qed.

Lemma fail_fast_for_each {A} (l : list A) (body : A -> M Sink unit) s :
  (forall a s1, fail_fast (body a s1)) -> fail_fast (for_each l body s).
Proof.
  intros Hb. revert s. induction l as [|a l IH]; intros s.
  - left. constructor.
  - cbn [for_each]. apply fail_fast_bind; [apply Hb | intros _ s1; apply IH].
Qed.

Lemma accepted_confirmation el id : accepted (confirmation el id).
Proof. destruct el; repeat constructor. Qed.

Lemma fail_fast_dispatch dry_run el s :
  fail_fast (dispatch sink_post board_id token dry_run el s).
Proof.
  destruct dry_run.
  { rewrite dispatch_dry. left. repeat constructor. }
  rewrite dispatch_apply. cbn zeta. sink_answer rs s'.
  destruct (400 <=? status_code rs)%Z eqn:Hst.
  - right. exists [], (Posted (creation_request board_id token el) rs).
    repeat split; try done. constructor.
  - destruct (resp_json rs) as [[out|type_name]|]; left.
    + constructor; [done | apply accepted_confirmation].
    + by repeat constructor.
    + by repeat constructor.
Qed.

Lemma creation_only_dispatch dry_run el s :
  Forall (creation_only board_id)
    (trace (dispatch sink_post board_id token dry_run el s)).
Proof.
  destruct dry_run.
  { rewrite dispatch_dry. by repeat constructor. }
  rewrite dispatch_apply. cbn zeta. sink_answer rs s'.
  assert (creation_only board_id
            (Posted (creation_request board_id token el) rs)) as Hrq.
  { destruct el; cbn;
      rewrite ?endpoint_kind_frames, ?endpoint_kind_shapes,
        ?endpoint_kind_sticky_notes; by eexists. }
  destruct (400 <=? status_code rs)%Z;
    [|destruct (resp_json rs) as [[out|type_name]|]];
    unfold trace; cbn [fst snd]; repeat constructor; try done.
  all: destruct el; by repeat constructor.
Qed.

Lemma creation_only_for_each dry_run (els : list PlacedElement) s :
  Forall (creation_only board_id)
    (trace (for_each els (dispatch sink_post board_id token dry_run) s)).
Proof.
  revert s. induction els as [|el els IH]; intros s; [constructor|].
  cbn [for_each]. rewrite bind_run.
  assert (Hd := creation_only_dispatch dry_run el s).
  destruct (dispatch sink_post board_id token dry_run el s) as [[[[]|e] t1] s1];
    [|done].
  unfold trace in *. cbn [fst snd] in *. apply Forall_app.
  split; [done|apply IH].
Qed.

End Runs.

(** A refused POST inside a fail-fast run is its last event. *)
Lemma fail_fast_refused {Sink A} (run : result A * list event * Sink)
    pre ev post :
  fail_fast run -> trace run = pre ++ ev :: post -> refused_post ev = true ->
  post = [] /\ accepted pre /\ outcome run = Raise (refusal ev).
Proof.
  intros [Hacc|(pre' & ev' & Ht & Hpre & Hev & Hout)] Heq Href.
  - rewrite Heq in Hacc. apply Forall_app in Hacc as [_ Hacc].
    apply Forall_cons in Hacc as [Hacc _]. congruence.
  - rewrite Heq in Ht. destruct post as [|x post _] using rev_ind.
    + apply (app_inj_tail pre pre' ev ev') in Ht as [-> ->]. done.
    + change (pre ++ ev :: post ++ [x]) with (pre ++ (ev :: post) ++ [x]) in Ht.
      rewrite app_assoc in Ht. apply app_inj_tail in Ht as [<- _].
      apply Forall_app in Hpre as [_ Hpre].
      apply Forall_cons in Hpre as [Hpre _]. congruence.
Qed.

(** ** Where the layout puts frames, lane titles and tiles *)

Section LayoutFacts.
Implicit Types (k : kind) (els : list PlacedElement).

Lemma positions_of_app k ps1 ps2 :
  positions_of k (ps1 ++ ps2) = positions_of k ps1 ++ positions_of k ps2.
Proof. unfold positions_of. by rewrite filter_app, fmap_app. Qed.

Lemma positions_of_prefix k ps1 ps2 :
  ps1 `prefix_of` ps2 -> positions_of k ps1 `prefix_of` positions_of k ps2.
Proof. intros [ps ->]. rewrite positions_of_app. by eexists. Qed.

Lemma positions_of_other k els :
  Forall (fun el => element_kind el ≠ k) els ->
  positions_of k (placed <$> els) = [].
Proof.
  induction 1 as [|el els Hel _ IH]; [done|].
  unfold positions_of in *. cbn [fmap list_fmap].
  rewrite filter_cons_False; done.
Qed.

Lemma positions_of_same k els :
  Forall (fun el => element_kind el = k) els ->
  positions_of k (placed <$> els) = element_position <$> els.
Proof.
  induction 1 as [|el els Hel _ IH]; [done|].
  unfold positions_of in *. cbn [fmap list_fmap].
  rewrite filter_cons_True by done. cbn [fmap list_fmap]. by rewrite IH.
Qed.

(** Blocks that each hold one element of a kind, taken together. *)
Lemma positions_of_blocks {A} k (f : nat -> A -> list PlacedElement)
    (g : nat -> pynum * pynum) (l : list A) :
  (forall i a, positions_of k (placed <$> f i a) = [g i]) ->
  positions_of k (placed <$> concat (imap f l)) = g <$> seq 0 (length l).
Proof.
  revert f g. induction l as [|a l IH]; intros f g Hf; [done|].
  cbn [imap concat length seq]. rewrite fmap_app, positions_of_app, Hf.
  cbn [fmap list_fmap app]. f_equal.
  rewrite (IH (f ∘ S) (g ∘ S)) by (intros; apply Hf).
  by rewrite <- fmap_S_seq, <- list_fmap_compose.
Qed.

Lemma layout_tiles_positions i j origin (stories : list Story) :
  element_position <$> imap (layout_tile i j origin) stories
  = (fun m => grid_cell origin.1 origin.2 4 (Z.of_nat m))
      <$> seq 0 (length stories).
Proof.
  rewrite <- (imap_seq_0 stories
    (fun m => grid_cell origin.1 origin.2 4 (Z.of_nat m))).
  rewrite fmap_imap. by apply imap_ext.
Qed.

(** The tiles of a lane: the grid, from the lane's content origin. *)
Lemma layout_lane_tiles i fx fy j act :
  positions_of KTile (placed <$> layout_lane i fx fy j act)
  = (fun m => grid_cell (lane_content_origin fx fy j).1
                (lane_content_origin fx fy j).2 4 (Z.of_nat m))
      <$> seq 0 (length (default [] (act_stories act))).
Proof.
  unfold layout_lane. cbn [fmap list_fmap].
  unfold positions_of at 1. rewrite filter_cons_False by done.
  fold (positions_of KTile
    (placed <$> imap (layout_tile i j (lane_content_origin fx fy j))
       (default [] (act_stories act)))).
  rewrite positions_of_same by (by apply Forall_imap).
  apply layout_tiles_positions.
Qed.

Lemma layout_theme_frames prefix i th :
  positions_of KFrame (placed <$> layout_theme prefix i th)
  = [(box_x (frame_box i), box_y (frame_box i))].
Proof.
  unfold layout_theme. cbn [fmap list_fmap].
  unfold positions_of at 1. rewrite filter_cons_True by done.
  cbn [fmap list_fmap]. f_equal.
  apply (positions_of_other KFrame). apply Forall_concat.
  apply Forall_imap. intros j act. constructor; [done|]. by apply Forall_imap.
Qed.

(** The frames of the layout: column [i] for theme [i], all in one row. *)
Lemma layout_frames prefix model :
  positions_of KFrame (placed <$> layout prefix model)
  = (fun i => (PyInt (ORIGIN_X + Z.of_nat i * (FRAME_W + COL_GAP)),
               PyInt ORIGIN_Y))
      <$> seq 0 (length (default [] (model_themes model))).
Proof.
  unfold layout. apply positions_of_blocks. intros i th.
  apply layout_theme_frames.
Qed.

End LayoutFacts.

(** ** The order of the layout *)

Section Order.
Context {B : Type} (R : B -> B -> Prop).

Lemma sorted_imap {A} (g : nat -> A -> B) (l : list A) :
  (forall k k' a a', k < k' -> R (g k a) (g k' a')) ->
  StronglySorted R (imap g l).
Proof.
  revert g. induction l as [|a l IH]; intros g Hg; [constructor|].
  cbn [imap]. apply StronglySorted_cons. split.
  - apply Forall_imap. intros k a'. apply Hg. lia.
  - apply IH. intros k k' a1 a2 Hk. apply Hg. lia.
Qed.

(** Sorted blocks, each before the later ones, are sorted end to end. *)
Lemma sorted_blocks {A} (f : nat -> A -> list B) (l : list A) :
  (forall i a, StronglySorted R (f i a)) ->
  (forall i i' a a' x y, i < i' -> x ∈ f i a -> y ∈ f i' a' -> R x y) ->
  StronglySorted R (concat (imap f l)).
Proof.
  revert f. induction l as [|a l IH]; intros f Hs Hc; [constructor|].
  cbn [imap concat]. apply StronglySorted_app. split; [|split].
  - intros x y Hx Hy. apply list_elem_of_concat in Hy as (block & Hy & Hb).
    apply elem_of_lookup_imap in Hb as (i' & a' & -> & _).
    apply (Hc 0 (S i') a a' x y); [lia|done..].
  - apply Hs.
  - apply IH; [intros; apply Hs|].
    intros i i' a1 a2 x y Hi. apply Hc. lia.
Qed.

End Order.

Lemma elem_of_layout_lane i fx fy j act el :
  el ∈ layout_lane i fx fy j act ->
  (element_index el).1.1 = i /\ (element_index el).1.2 = S j.
Proof.
  unfold layout_lane. rewrite elem_of_cons. intros [->|Hel]; [done|].
  by apply elem_of_lookup_imap in Hel as (k & st & -> & _).
Qed.

Lemma elem_of_layout_theme prefix i th el :
  el ∈ layout_theme prefix i th -> (element_index el).1.1 = i.
Proof.
  unfold layout_theme. rewrite elem_of_cons. intros [->|Hel]; [done|].
  apply list_elem_of_concat in Hel as (block & Hel & Hb).
  apply elem_of_lookup_imap in Hb as (j & act & -> & _).
  by apply elem_of_layout_lane in Hel as [? _].
Qed.

Lemma layout_lane_sorted i fx fy j act :
  StronglySorted precedes (layout_lane i fx fy j act).
Proof.
  unfold layout_lane. apply StronglySorted_cons. split.
  - apply Forall_imap. intros k st. unfold precedes, index_lt. cbn. lia.
  - apply sorted_imap. intros k k' st st' Hk.
    unfold precedes, index_lt. cbn. lia.
Qed.

Lemma layout_theme_sorted prefix i th :
  StronglySorted precedes (layout_theme prefix i th).
Proof.
  unfold layout_theme. apply StronglySorted_cons. split.
  - apply Forall_forall. intros el Hel.
    apply list_elem_of_concat in Hel as (block & Hel & Hb).
    apply elem_of_lookup_imap in Hb as (j & act & -> & _).
    apply elem_of_layout_lane in Hel as [H1 H2].
    unfold precedes, index_lt. cbn. lia.
  - apply sorted_blocks; [intros; apply layout_lane_sorted|].
    intros j j' act act' x y Hj Hx Hy.
    apply elem_of_layout_lane in Hx as [Hx1 Hx2].
    apply elem_of_layout_lane in Hy as [Hy1 Hy2].
    unfold precedes, index_lt. lia.
Qed.

(** The layout lists the elements in traversal order. *)
Lemma layout_sorted prefix model :
  StronglySorted precedes (layout prefix model).
Proof.
  unfold layout. apply sorted_blocks; [intros; apply layout_theme_sorted|].
  intros i i' th th' x y Hi Hx Hy.
  apply elem_of_layout_theme in Hx. apply elem_of_layout_theme in Hy.
  unfold precedes, index_lt. lia.
Qed.

(** ** The elements of one theme and of one lane *)




(** ** Placement properties *)

(** C1: for a story map with N themes, the frame of theme [i] (counted from
    0) is placed at x = ORIGIN_X + i * (FRAME_W + COL_GAP), and every frame
    has the same y, ORIGIN_Y (the row index is always 0).  The frames a run
    places, read off its trace in order, are these columns: all of them when
    the run completes, the first ones when a refused call stops it (which
    cannot happen in preview mode). *)
Theorem C1_frame_columns {Sink : Type}
    (sink_post : Sink -> request -> response * Sink)
    (board_id token prefix : string) (dry_run : bool) (model : Model)
    (s : Sink) :
  let run := render_storymap sink_post board_id token prefix dry_run model s in
  let frames := positions_of KFrame (placements board_id (trace run)) in
  let expected :=
    (fun i : nat =>
       (PyInt (ORIGIN_X + Z.of_nat i * (FRAME_W + COL_GAP)), PyInt ORIGIN_Y))
      <$> seq 0 (length (default [] (model_themes model))) in
  (forall i : nat,
     compute_frame_origin (Z.of_nat i) 0
     = (PyInt (ORIGIN_X + Z.of_nat i * (FRAME_W + COL_GAP)), PyInt ORIGIN_Y))
  /\ frames `prefix_of` expected
  /\ match outcome run with
     | Ok _ => frames = expected
     | Raise _ => dry_run = false
     end.
Proof.
  cbn zeta. split; [reflexivity|].
  rewrite render_storymap_dispatch, <- (layout_frames prefix).
  destruct (placements_for_each sink_post board_id token dry_run
              (layout prefix model) s) as [Hpre Hall].
  split; [by apply positions_of_prefix|].
  destruct (outcome _) as [[]|e] eqn:Hout.
  - by rewrite Hall.
  - destruct dry_run; [|done].
    by rewrite for_each_dispatch_dry in Hout.
Qed.

(** C2: for a lane with k stories and 4 columns, the position list has the
    tile of story [i] (counted from 0) at grid row [i div 4] and grid column
    [i mod 4], that is at start_x + col * (STICKY_W + STICKY_GAP_X) and
    start_y + row * (STICKY_H + STICKY_GAP_Y); and the tiles the renderer
    places for a lane are these positions, from the lane's content origin. *)
Theorem C2_grid_packing {Sink : Type}
    (sink_post : Sink -> request -> response * Sink)
    (board_id token : string) (dry_run : bool) (fx fy : pynum) (j : nat)
    (act : Activity) (s : Sink) (start_x start_y : pynum) (k : nat) :
  let cell_of (x0 y0 : pynum) (i : nat) :=
    ((x0 + PyInt (Z.of_nat i mod 4 * (STICKY_W + STICKY_GAP_X)))%py,
     (y0 + PyInt (Z.of_nat i / 4 * (STICKY_H + STICKY_GAP_Y)))%py) in
  (exists positions,
     sticky_grid_positions start_x start_y 4 (Z.of_nat k) = Ok positions
     /\ length positions = k
     /\ forall i : nat, (i < k)%nat ->
          positions !! i = Some (cell_of start_x start_y i))
  /\ let run :=
       lane_body sink_post board_id token dry_run fx fy (Z.of_nat j, act) s in
     let tiles := positions_of KTile (placements board_id (trace run)) in
     let grid :=
       cell_of (fx - FRAME_W / 2%Z + 300%Z)%py (lane_y fy (Z.of_nat j))
         <$> seq 0 (length (default [] (act_stories act))) in
     tiles `prefix_of` grid
     /\ match outcome run with
        | Ok _ => tiles = grid
        | Raise _ => dry_run = false
        end.
Proof.
  cbn zeta. split.
  - eexists. split; [by apply sticky_grid_positions_spec|].
    split; [by rewrite length_fmap, length_seq|].
    intros i Hi. rewrite list_lookup_fmap, lookup_seq_lt by done. reflexivity.
  - rewrite (lane_body_dispatch sink_post board_id token dry_run 0 fx fy j act).
    change (_ <$> seq 0 (length (default [] (act_stories act))))
      with ((fun m => grid_cell (lane_content_origin fx fy j).1
                        (lane_content_origin fx fy j).2 4 (Z.of_nat m))
              <$> seq 0 (length (default [] (act_stories act)))).
    rewrite <- (layout_lane_tiles 0 fx fy j act).
    destruct (placements_for_each sink_post board_id token dry_run
                (layout_lane 0 fx fy j act) s) as [Hpre Hall].
    split; [by apply positions_of_prefix|].
    destruct (outcome _) as [[]|e] eqn:Hout.
    + by rewrite Hall.
    + destruct dry_run; [|done].
      by rewrite for_each_dispatch_dry in Hout.
Qed.


(** ** Tile content, failures, preview and payloads *)

(** C7: the text of a story's tile is the status marker, then the story
    title, then "[team] [sprint]" on a new line, and its fill color is the
    color of the story's team.  The creation call carries both; the preview
    line shows the first 40 characters of the text.  For a story loaded from
    a row with a note, the title is the story followed by a blank line, the
    note glyph and the note. *)
Theorem C7_tile_text_and_color {Sink : Type}
    (sink_post : Sink -> request -> response * Sink)
    (board_id token : string) (st : Story) (sx sy : pynum) (s : Sink)
    (f : Fields) :
  let sprint := default "S?" (story_sprint st) in
  let team := default "MO" (story_team st) in
  let status := default "Backlog" (story_status st) in
  let text :=
    dict_get STATUS_EMOJI status "⬜️" +:+ " "
    +:+ default "Story" (story_title st) +:+ nl
    +:+ "[" +:+ team +:+ "] [" +:+ sprint +:+ "]" in
  let color := dict_get TEAM_COLOR team "light_yellow" in
  let payload :=
    JObj [ ("data", JObj [("content", JStr text)]);
           ("style", JObj [("fillColor", JStr color);
                           ("textAlign", JStr "left")]);
           ("position", JObj [("x", JNum sx); ("y", JNum sy)]) ] in
  req_body
    <$> requests (trace (story_body sink_post board_id token false
                           (st, (sx, sy)) s))
  = [payload]
  /\ trace (story_body sink_post board_id token true (st, (sx, sy)) s)
     = [Printed (DrySticky (str_take 40 text) sx sy color)]
  /\ story_title (new_story f)
     = Some (f_story f
             +:+ match f_notes f with
                 | EmptyString => ""
                 | _ => nl +:+ nl +:+ "📝 " +:+ f_notes f
                 end)
  /\ story_sprint (new_story f) = Some (f_sprint f)
  /\ story_team (new_story f) = Some (f_team f)
  /\ story_status (new_story f) = Some (f_status f).
Proof.
  cbn zeta. split; [|split; [reflexivity|]].
  - unfold story_body. unfold_run. sink_answer rs s'.
    destruct (400 <=? status_code rs)%Z; [done|].
    by destruct (resp_json rs) as [[out|type_name]|].
  - unfold new_story. cbn [story_title story_sprint story_team story_status].
    destruct (f_notes f); [by rewrite append_empty_r | done].
Qed.

(** C8: in apply mode, when the Sink answers a creation call with a status
    of 400 or above, the run ends there with the RuntimeError of that call:
    the refused POST is the last event of the run (nothing is retried, no
    further element is dispatched), every call before it was accepted, and
    every call of the run is a creation call (nothing is undone). *)
Theorem C8_refused_post_aborts {Sink : Type}
    (sink_post : Sink -> request -> response * Sink)
    (board_id token prefix : string) (model : Model) (s : Sink)
    (pre : list event) (ev : event) (post : list event) :
  let run := render_storymap sink_post board_id token prefix false model s in
  trace run = pre ++ ev :: post ->
  refused_post ev = true ->
  post = []
  /\ outcome run = Raise (refusal ev)
  /\ accepted pre
  /\ Forall (creation_only board_id) (trace run).
Proof.
  cbn zeta. intros Ht Hev.
  assert (fail_fast
    (render_storymap sink_post board_id token prefix false model s)) as Hff.
  { rewrite render_storymap_dispatch.
    apply fail_fast_for_each. intros el s1. apply fail_fast_dispatch. }
  destruct (fail_fast_refused _ pre ev post Hff Ht Hev) as (-> & Hpre & Hout).
  repeat split; try done.
  rewrite render_storymap_dispatch. apply creation_only_for_each.
Qed.

(** C9, amended: in preview mode no creation call is made and the Sink is
    left as it was, and exactly one description is printed per placed
    element (one [print] each), in the order of the layout.  That order is
    the traversal order: a theme's frame, then each of its lanes with the
    lane's title before the lane's tiles, and all of a theme before the next
    theme.  A description is not always one console line: that of a tile
    shows the start of the tile's text, newline included. *)
Theorem C9_preview {Sink : Type}
    (sink_post : Sink -> request -> response * Sink)
    (board_id token prefix : string) (model : Model) (s : Sink) :
  let run := render_storymap sink_post board_id token prefix true model s in
  run = (Ok tt, (fun el => Printed (describe el)) <$> layout prefix model, s)
  /\ requests (trace run) = []
  /\ length (trace run) = length (layout prefix model)
  /\ StronglySorted precedes (layout prefix model).
Proof.
  cbn zeta. rewrite render_storymap_dispatch, for_each_dispatch_dry.
  split; [done|]. unfold trace. cbn [fst snd]. split; [|split].
  - induction (layout prefix model); done.
  - by rewrite length_fmap.
  - apply layout_sorted.
Qed.

(** C10: the width and height handed to the three creation operations have
    no effect: the request is the same whatever they are, the payload of
    [create_frame] holds the title and the position only, the payloads of
    [create_shape] and [create_sticky] hold the content (with the shape kind
    for a shape), the style and the position only, and none has a size. *)
Theorem C10_size_not_sent {Sink : Type}
    (sink_post : Sink -> request -> response * Sink)
    (board_id token title text shape color : string) (x y : pynum)
    (w h w' h' : Z) (s : Sink) :
  let position := ("position", JObj [("x", JNum x); ("y", JNum y)]) in
  let sent {A} (run : result A * list event * Sink) :=
    req_body <$> requests (trace run) in
  (create_frame sink_post board_id token title x y w h s
   = create_frame sink_post board_id token title x y w' h' s
   /\ sent (create_frame sink_post board_id token title x y w h s)
      = [JObj [("data", JObj [("title", JStr title)]); position]])
  /\ (create_shape sink_post board_id token text x y w h shape s
      = create_shape sink_post board_id token text x y w' h' shape s
      /\ sent (create_shape sink_post board_id token text x y w h shape s)
         = [JObj [("data", JObj [("content", JStr text);
                                 ("shape", JStr shape)]);
                  position;
                  ("style", JObj [("fontSize", JNum 28%Z)])]])
  /\ (create_sticky sink_post board_id token text x y color w h s
      = create_sticky sink_post board_id token text x y color w' h' s
      /\ sent (create_sticky sink_post board_id token text x y color w h s)
         = [JObj [("data", JObj [("content", JStr text)]);
                  ("style", JObj [("fillColor", JStr color);
                                  ("textAlign", JStr "left")]);
                  position]])
  /\ json_keys <$> sent (create_frame sink_post board_id token title x y w h s)
     = [["data"; "title"; "position"; "x"; "y"]]
  /\ json_keys
       <$> sent (create_shape sink_post board_id token text x y w h shape s)
     = [["data"; "content"; "shape"; "position"; "x"; "y"; "style";
         "fontSize"]]
  /\ json_keys
       <$> sent (create_sticky sink_post board_id token text x y color w h s)
     = [["data"; "content"; "style"; "fillColor"; "textAlign"; "position";
         "x"; "y"]].
Proof.
  cbn zeta.
  assert (forall url payload,
    req_body <$> requests (trace
      (bind (_post sink_post url token payload)
            (fun out => out_get out "id") s)) = [payload]) as Hsent.
  { intros url payload. unfold_run. sink_answer rs s'.
    destruct (400 <=? status_code rs)%Z; [done|].
    by destruct (resp_json rs) as [[out|type_name]|]. }
  unfold create_frame, create_shape, create_sticky. cbn zeta.
  rewrite !Hsent. repeat split.
Qed.


(** ** The loader *)

Section FirstSeen.
Context {A : Type} (key : A -> string).
Implicit Types l : list A.

Lemma elem_of_keys_filter (k y : string) l :
  y ∈ key <$> filter (fun z => key z ≠ k) l <-> y ≠ k /\ y ∈ key <$> l.
Proof.
  rewrite !list_elem_of_fmap. split.
  - intros (z & -> & Hz). apply list_elem_of_filter in Hz as [? ?]. eauto.
  - intros (Hne & z & -> & Hz). exists z. split; [done|].
    by apply list_elem_of_filter.
Qed.

(** [first_seen] keeps every key, once. *)
Lemma elem_of_first_seen_keys y l :
  y ∈ key <$> first_seen key l <-> y ∈ key <$> l.
Proof.
  induction l as [|x l IH]; [done|].
  cbn [first_seen fmap list_fmap].
  rewrite !elem_of_cons, elem_of_keys_filter, IH.
  destruct (decide (y = key x)); tauto.
Qed.

Lemma NoDup_first_seen_keys l : NoDup (key <$> first_seen key l).
Proof.
  induction l as [|x l IH]; [constructor|].
  cbn [first_seen fmap list_fmap]. constructor.
  - rewrite elem_of_keys_filter. by intros [? _].
  - eapply sublist_NoDup; [exact IH|]. apply fmap_sublist, sublist_filter.
Qed.

(** Adding an element at the end: it is kept when its key is new. *)
Lemma first_seen_snoc l x :
  first_seen key (l ++ [x])
  = if decide (key x ∈ key <$> l) then first_seen key l
    else first_seen key l ++ [x].
Proof.
  induction l as [|a l IH].
  { cbn. rewrite decide_False; [done | apply not_elem_of_nil]. }
  cbn [app first_seen]. rewrite IH, fmap_cons.
  destruct (decide (key x ∈ key <$> l)) as [Hin|Hin].
  - rewrite decide_True by (rewrite elem_of_cons; by right). done.
  - rewrite filter_app, filter_cons, filter_nil.
    destruct (decide (key x = key a)) as [Heq|Hne].
    + rewrite (decide_True (P := key x ∈ _))
        by (rewrite elem_of_cons; by left).
      rewrite (decide_False (P := key x ≠ key a)) by (by intros []).
      by rewrite app_nil_r.
    + rewrite (decide_False (P := key x ∈ _))
        by (rewrite elem_of_cons; by intros [?|?]).
      by rewrite (decide_True (P := key x ≠ key a)) by done.
Qed.

End FirstSeen.

(** A row that is not complete cannot be read; a complete one gives its
    cells. *)
Lemma field_spec (row : Row) (key dflt : string) :
  str_strip dflt = dflt ->
  field row key dflt
  = if bool_decide (row !! key ≠ Some None) then Ok (cell row key dflt)
    else Raise (AttributeError "'NoneType' object has no attribute 'strip'").
Proof.
  intros Hd. unfold field, cell, dict_get.
  destruct (row !! key) as [[v|]|]; cbn; by rewrite ?Hd.
Qed.

Lemma read_row_spec (row : Row) :
  read_row row
  = if complete row then Ok (row_fields row)
    else Raise (AttributeError "'NoneType' object has no attribute 'strip'").
Proof.
  unfold read_row, complete, columns, row_fields. cbn [forallb].
  rewrite !field_spec by reflexivity.
  repeat (destruct (bool_decide (_ ≠ Some None)); [cbn|reflexivity]).
  reflexivity.
Qed.

Section Merge.
Variable str_lower : string -> string.
Implicit Types (fs own : list Fields) (f : Fields).

Lemma merged_activity_snoc_other own f n :
  str_lower (f_activity f) ≠ str_lower n ->
  merged_activity str_lower (own ++ [f]) n = merged_activity str_lower own n.
Proof.
  intros Hne. unfold merged_activity. rewrite filter_snoc.
  by rewrite decide_False by done.
Qed.

Lemma merged_activity_snoc_same own f n :
  str_lower (f_activity f) = str_lower n ->
  merged_activity str_lower (own ++ [f]) n
  = append_story (new_story f) (merged_activity str_lower own n).
Proof.
  intros Heq. unfold merged_activity, append_story. rewrite filter_snoc.
  rewrite decide_True by done. by rewrite fmap_app.
Qed.

(** Appending a row's story to the activities merged so far gives the
    activities merged with that row. *)
Lemma add_story_merged own f :
  add_story str_lower
    (merged_activity str_lower own
       <$> first_seen str_lower (f_activity <$> own))
    (f_activity f) (new_story f)
  = merged_activity str_lower (own ++ [f])
      <$> first_seen str_lower (f_activity <$> (own ++ [f])).
Proof.
  rewrite fmap_app. cbn [fmap list_fmap]. rewrite first_seen_snoc.
  set (N := first_seen str_lower (f_activity <$> own)).
  assert (NoDup (str_lower <$> N)) as Hnodup by apply NoDup_first_seen_keys.
  unfold add_story.
  destruct (list_find _ _) as [[i x]|] eqn:Hfind.
  - apply list_find_Some in Hfind as (Hi & HP & _).
    rewrite list_lookup_fmap in Hi.
    destruct (N !! i) as [n|] eqn:HNi; [|done]. injection Hi as <-.
    change (str_lower n = str_lower (f_activity f)) in HP.
    rewrite decide_True.
    2:{ apply (elem_of_first_seen_keys str_lower). fold N. rewrite <- HP.
        apply list_elem_of_fmap_2. by eapply list_elem_of_lookup_2. }
    apply list_eq. intros j. destruct (decide (i = j)) as [<-|Hij].
    + rewrite list_lookup_alter_eq, !list_lookup_fmap, HNi. cbn.
      by rewrite merged_activity_snoc_same.
    + rewrite list_lookup_alter_ne, !list_lookup_fmap by done.
      destruct (N !! j) as [m|] eqn:HNj; [|done]. cbn. f_equal.
      symmetry. apply merged_activity_snoc_other. intros Heq.
      apply Hij. apply (NoDup_lookup _ i j (str_lower n) Hnodup).
      * by rewrite list_lookup_fmap, HNi.
      * rewrite list_lookup_fmap, HNj. cbn. congruence.
  - apply list_find_None in Hfind.
    assert (forall n, n ∈ N -> str_lower (f_activity f) ≠ str_lower n)
      as Hnew.
    { intros n Hn Heq. rewrite Forall_forall in Hfind.
      apply (Hfind (merged_activity str_lower own n));
        [by apply list_elem_of_fmap_2 | by symmetry]. }
    rewrite decide_False.
    2:{ intros Hin. apply (elem_of_first_seen_keys str_lower) in Hin.
        apply list_elem_of_fmap in Hin as (n & Heq & Hn). by eapply Hnew. }
    rewrite fmap_app. f_equal.
    + apply list_fmap_ext. intros j n Hn. symmetry.
      apply merged_activity_snoc_other, Hnew. by eapply list_elem_of_lookup_2.
    + cbn [fmap list_fmap]. unfold merged_activity. rewrite filter_snoc.
      rewrite decide_True by done. f_equal. f_equal. f_equal.
      replace (filter (in_activity str_lower (f_activity f)) own) with
        (@nil Fields); [done|].
      symmetry. apply filter_none.
      apply Forall_forall. intros g Hg Hgin. unfold in_activity in Hgin.
      assert (str_lower (f_activity g) ∈ str_lower <$> N) as Hin.
      { apply (elem_of_first_seen_keys str_lower).
        apply list_elem_of_fmap_2. by apply list_elem_of_fmap_2. }
      apply list_elem_of_fmap in Hin as (n & Heq & Hn).
      apply (Hnew n Hn). congruence.
Qed.

Lemma merged_theme_snoc_other fs f t :
  f_theme f ≠ t ->
  merged_theme str_lower (fs ++ [f]) t = merged_theme str_lower fs t.
Proof.
  intros Hne. unfold merged_theme. rewrite filter_snoc.
  by rewrite decide_False by done.
Qed.

Lemma merged_theme_snoc_same fs f :
  merged_theme str_lower (fs ++ [f]) (f_theme f)
  = mkTheme (Some (f_theme f))
      (Some (add_story str_lower
               (default []
                  (theme_activities (merged_theme str_lower fs (f_theme f))))
               (f_activity f) (new_story f))).
Proof.
  unfold merged_theme. cbn zeta. rewrite filter_snoc.
  rewrite decide_True by reflexivity. cbn [theme_activities default].
  do 2 f_equal. symmetry. apply add_story_merged.
Qed.

(** A theme no row names yet is the empty theme the loader creates. *)
Lemma merged_theme_new fs t :
  t ∉ f_theme <$> fs ->
  merged_theme str_lower fs t = mkTheme (Some t) (Some []).
Proof.
  intros Hnew. unfold merged_theme.
  rewrite (filter_none (in_theme t)); [done|].
  apply Forall_forall. intros g Hg Hgt. apply Hnew. rewrite <- Hgt.
  by apply list_elem_of_fmap_2.
Qed.

Lemma dict_keys_tabulate {V} (g : string -> V) (L : list string) :
  ((fun t => (t, g t)) <$> L).*1 = L.
Proof. induction L as [|t L IH]; [done|]. cbn. by rewrite IH. Qed.

(** One turn of the loop takes the merge of the rows read so far to the
    merge with the next row. *)
Lemma add_row_merged fs f :
  add_row str_lower (merged_dict str_lower fs) f
  = merged_dict str_lower (fs ++ [f]).
Proof.
  unfold add_row, merged_dict, dict_has.
  rewrite dict_keys_tabulate, fmap_app. cbn [fmap list_fmap].
  rewrite (first_seen_snoc id). cbn [id]. rewrite !list_fmap_id.
  assert (f_theme f ∈ first_seen id (f_theme <$> fs)
          <-> f_theme f ∈ f_theme <$> fs) as Hkeys.
  { pose proof (elem_of_first_seen_keys id (f_theme f) (f_theme <$> fs)) as H.
    by rewrite !list_fmap_id in H. }
  set (L := first_seen id (f_theme <$> fs)) in *.
  assert (forall L',
    dict_alter
      (fun th => mkTheme (theme_name th)
         (Some (add_story str_lower (default [] (theme_activities th))
                  (f_activity f) (new_story f))))
      (f_theme f) ((fun t => (t, merged_theme str_lower fs t)) <$> L')
    = (fun t => (t, merged_theme str_lower (fs ++ [f]) t)) <$> L') as Halter.
  { intros L'. unfold dict_alter. rewrite <- list_fmap_compose.
    apply list_fmap_ext. intros _ t _. cbn.
    destruct (decide (t = f_theme f)) as [->|Hne].
    - by rewrite merged_theme_snoc_same.
    - by rewrite merged_theme_snoc_other. }
  destruct (decide (f_theme f ∈ f_theme <$> fs)) as [Hin|Hnew].
  - rewrite bool_decide_eq_true_2 by (by apply Hkeys). apply Halter.
  - rewrite bool_decide_eq_false_2 by (by rewrite Hkeys).
    rewrite <- (merged_theme_new fs (f_theme f) Hnew).
    rewrite <- (Halter (L ++ [f_theme f])). by rewrite fmap_app.
Qed.

Lemma fold_add_row fs :
  fold_left (add_row str_lower) fs [] = merged_dict str_lower fs.
Proof.
  induction fs as [|f fs IH] using rev_ind; [done|].
  by rewrite fold_left_app, IH, <- add_row_merged.
Qed.

Lemma load_rows_spec (rows : list Row) themes :
  load_rows str_lower rows themes
  = if forallb complete rows
    then Ok (fold_left (add_row str_lower) (row_fields <$> rows) themes)
    else Raise (AttributeError "'NoneType' object has no attribute 'strip'").
Proof.
  revert themes. induction rows as [|row rows IH]; intros themes; [done|].
  cbn [load_rows forallb fmap list_fmap fold_left]. rewrite read_row_spec.
  destruct (complete row); [apply IH | done].
Qed.

(** The loader is the de-duplication rule applied to the cells of the rows,
    when every row is complete. *)
Lemma load_from_csv_spec (rows : list Row) :
  load_from_csv str_lower rows
  = if forallb complete rows
    then Ok (merged str_lower (row_fields <$> rows))
    else Raise (AttributeError "'NoneType' object has no attribute 'strip'").
Proof.
  unfold load_from_csv. rewrite load_rows_spec.
  destruct (forallb complete rows); [|done].
  cbn [result_bind]. rewrite fold_add_row. unfold merged, merged_dict.
  do 3 f_equal. by rewrite <- list_fmap_compose.
Qed.

End Merge.

(** X22: the merge rule, for a file in which every row has a cell in each
    column ([complete]).  The loader merges the rows whose theme names are
    equal, character for character, into one theme; within a theme it
    merges the rows whose activity names are equal once lowered into one
    activity, which keeps the spelling seen first; and each activity holds
    the stories of its rows in input order.  Themes and activities stand in
    the order they are first seen, and no theme name, and within a theme no
    lowered activity name, occurs twice. *)
Theorem merge_rule_of_complete_rows (str_lower : string -> string)
    (rows : list Row) :
  forallb complete rows = true ->
  let fs := row_fields <$> rows in
  let themes := first_seen id (f_theme <$> fs) in
  let activities_of t :=
    first_seen str_lower (f_activity <$> filter (fun f => f_theme f = t) fs) in
  let stories_of t a :=
    new_story
      <$> filter (fun f => f_theme f = t
                           /\ str_lower (f_activity f) = str_lower a) fs in
  load_from_csv str_lower rows
  = Ok (mkModel (Some "R4") (Some
      ((fun t => mkTheme (Some t) (Some
          ((fun a => mkActivity (Some a) (Some (stories_of t a)))
             <$> activities_of t)))
         <$> themes)))
  /\ NoDup themes
  /\ forall t, NoDup (str_lower <$> activities_of t).
Proof.
  intros Hrows. cbn zeta. split; [|split].
  - rewrite load_from_csv_spec, Hrows.
    unfold merged, merged_theme, merged_activity. do 3 f_equal.
    apply list_fmap_ext. intros _ t _. do 2 f_equal.
    apply list_fmap_ext. intros _ a _. do 3 f_equal.
    rewrite list_filter_filter. apply list_filter_iff. intros f.
    unfold in_theme, in_activity. tauto.
  - pose proof (NoDup_first_seen_keys id (f_theme <$> (row_fields <$> rows)))
      as H. by rewrite list_fmap_id in H.
  - intros t. apply NoDup_first_seen_keys.
Qed.

(** C5, amended: when a column is absent from a row, the loader takes the
    defaults Theme "Inconnu", Activity "Général", Sprint "S1", Team "MO",
    Status "Backlog", and an empty Story and Notes; a cell that is present
    is taken stripped, even when empty.  A row without a Story column and
    without a note gives a story with an empty title, and no error. *)
Theorem C5_missing_columns (str_lower : string -> string) (row : Row) :
  complete row = true ->
  let get (key dflt : string) :=
    match row !! key with
    | None => dflt
    | Some None => ""
    | Some (Some text) => str_strip text
    end in
  let notes := get "Notes" "" in
  let title :=
    match notes with
    | EmptyString => get "Story" ""
    | _ => get "Story" "" +:+ nl +:+ nl +:+ "📝 " +:+ notes
    end in
  load_from_csv str_lower [row]
  = Ok (mkModel (Some "R4") (Some
      [ theme (get "Theme" "Inconnu")
          [ activity (get "Activity" "Général")
              [ story title (get "Sprint" "S1") (get "Team" "MO")
                  (get "Status" "Backlog") ] ] ]))
  /\ load_from_csv str_lower [∅]
     = Ok (mkModel (Some "R4") (Some
         [ theme "Inconnu"
             [ activity "Général" [ story "" "S1" "MO" "Backlog" ] ] ])).
Proof.
  intros Hrow. cbn zeta.
  assert (forall r : Row, complete r = true ->
    load_from_csv str_lower [r]
    = Ok (mkModel (Some "R4") (Some
        [ theme (f_theme (row_fields r))
            [ activity (f_activity (row_fields r))
                [ new_story (row_fields r) ] ] ]))) as Hone.
  { intros r Hr. unfold load_from_csv. cbn [load_rows].
    rewrite read_row_spec, Hr. cbn [result_bind].
    unfold add_row, dict_has. cbn [fmap list_fmap].
    rewrite bool_decide_eq_false_2 by apply not_elem_of_nil.
    unfold dict_alter. cbn [app fmap list_fmap fst snd].
    rewrite decide_True by done. reflexivity. }
  split; [|by rewrite Hone].
  assert (forall key dflt,
    match row !! key with
    | None => dflt
    | Some None => ""
    | Some (Some text) => str_strip text
    end = cell row key dflt) as Hget.
  { intros key dflt. unfold cell. by destruct (row !! key) as [[?|]|]. }
  rewrite !Hget. apply (Hone row Hrow).
Qed.

(** C4, at a file with a line shorter than its header: the header
    Theme,Activity,Story and the lines "Paiement,Saisie,a" and
    "Paiement,Saisie".  The reader gives [None] for the Story of the second
    line; the loader raises on it and returns nothing, the first row
    included, so no rows are merged.  Written "Paiement,Saisie," (an empty
    cell), the same line is merged with the first into one activity of one
    theme, stories in input order. *)
Theorem C4_short_line_stops_the_load :
  let line (story : option string) : Row :=
    {[ "Theme" := Some "Paiement"; "Activity" := Some "Saisie";
       "Story" := story ]} in
  load_from_csv ascii_lower [line (Some "a"); line None]
  = Raise (AttributeError "'NoneType' object has no attribute 'strip'")
  /\ load_from_csv ascii_lower [line (Some "a"); line (Some "")]
     = Ok (mkModel (Some "R4") (Some
         [ theme "Paiement"
             [ activity "Saisie"
                 [ story "a" "S1" "MO" "Backlog";
                   story "" "S1" "MO" "Backlog" ] ] ])).
Proof. cbn zeta. split; vm_compute; reflexivity. Qed.

(** A line shorter than the header stops the loader. *)
Lemma short_row_raises (str_lower : string -> string) :
  load_from_csv str_lower
    [ {[ "Theme" := Some "T"; "Activity" := Some "A"; "Story" := None ]} ]
  = Raise (AttributeError "'NoneType' object has no attribute 'strip'").
Proof. by rewrite load_from_csv_spec. Qed.

(** ** Concrete runs *)


(** C5 at a row whose file has no Theme, Activity, Sprint and Status
    columns. *)
Lemma C5_missing_columns_witness :
  complete sample_row = true
  /\ load_from_csv ascii_lower [sample_row]
     = Ok (mkModel (Some "R4") (Some
         [ theme "Inconnu"
             [ activity "Général"
                 [ story "Relancer le client" "S1" "IHM" "Backlog" ] ] ])).
Proof.
  split; [reflexivity|].
  exact (proj1 (C5_missing_columns ascii_lower sample_row eq_refl)).
Defined.

(** C5 as the specification states it fails on that row: the theme and the
    activity the loader substitutes are named in French, "Inconnu" and
    "Général", not "Unknown" and "General". *)
Lemma C5_counterexample :
  load_from_csv ascii_lower [sample_row]
  ≠ Ok (mkModel (Some "R4") (Some
      [ theme "Unknown"
          [ activity "General"
              [ story "Relancer le client" "S1" "IHM" "Backlog" ] ] ])).
Proof. vm_compute. discriminate. Qed.

(** X22 at four rows: "Paiement" and "paiement" stay two themes, "Saisie"
    and "SAISIE " are one activity. *)
Lemma merge_rule_of_complete_rows_witness :
  forallb complete sample_rows = true
  /\ load_from_csv ascii_lower sample_rows
     = Ok (mkModel (Some "R4") (Some
         [ theme "Paiement"
             [ activity "Saisie"
                 [ story "a" "S2" "BPM" "En cours";
                   story "c" "S2" "BPM" "En cours" ];
               activity "Suivi" [ story "d" "S2" "BPM" "En cours" ] ];
           theme "paiement"
             [ activity "Saisie" [ story "b" "S2" "BPM" "En cours" ] ] ])).
Proof.
  split; [reflexivity|].
  exact (proj1 (merge_rule_of_complete_rows ascii_lower sample_rows eq_refl)).
Defined.


(** C8 at a run whose second creation call is refused with status 500. *)
Lemma C8_refused_post_aborts_witness :
  let run :=
    render_storymap (scripted_post (created "late")) "B" "tok" "R4" false
      small_model failing_script in
  outcome run
  = Raise (RuntimeError
      "POST https://api.miro.com/v2/boards/B/shapes failed: 500 boom")
  /\ length (trace run) = 4%nat.
Proof.
  set (frame := FrameElement 0 "R4 – T1" (frame_box 0)).
  set (lane :=
         LaneTitleElement 0 0 "A1"
           (lane_title_box (box_x (frame_box 0)) (box_y (frame_box 0)) 0)).
  set (pre := Posted (creation_request "B" "tok" frame) (created "f1")
              :: confirmation frame (Some "f1")).
  set (ev := Posted (creation_request "B" "tok" lane) (refused 500 "boom")).
  assert (trace (render_storymap (scripted_post (created "late")) "B" "tok"
                   "R4" false small_model failing_script)
          = pre ++ ev :: []) as Htrace by (vm_compute; reflexivity).
  destruct (C8_refused_post_aborts (scripted_post (created "late")) "B" "tok"
              "R4" small_model failing_script pre ev [] Htrace eq_refl)
    as (_ & Hout & _ & _).
  cbn zeta. split; [exact Hout|]. rewrite Htrace. reflexivity.
Defined.

(** C9 as the specification states it fails on [small_model]: the preview
    describes its three elements in four lines, because the description of
    the tile shows the start of its text, and the text has a newline before
    "[IHM] [S1]". *)
Lemma C9_counterexample :
  console_lines repr_integral_float
    (trace (render_storymap (scripted_post (created "x")) "B" "tok" "R4" true
              small_model []))
  ≠ length (layout "R4" small_model).
Proof. vm_compute. discriminate. Qed.

(** What that preview writes. *)
Example preview_of_small_model :
  console_text repr_integral_float
    (trace (render_storymap (scripted_post (created "x")) "B" "tok" "R4" true
              small_model []))
  = "[DRY] Frame 'R4 – T1' @ (-2000,-1000)" +:+ nl
    +:+ "[DRY] Lane 'A1' title @ (-2700.0,-1570.0)" +:+ nl
    +:+ "[DRY] Sticky '⬜️ s1" +:+ nl
    +:+ "[IHM] [S1]...' @ (-2600.0,-1470.0) color=light_yellow" +:+ nl.
Proof. vm_compute. reflexivity. Qed.

(** The default story map: 4 frames, 9 lane titles and 20 tiles, previewed
    in 53 lines. *)
Example preview_of_default_model :
  let t :=
    trace (render_storymap (scripted_post (created "x")) "B" "tok" "R4" true
             DEFAULT_MODEL []) in
  element_kind <$> filter (fun el => element_kind el = KFrame)
                     (layout "R4" DEFAULT_MODEL)
  = replicate 4 KFrame
  /\ length (filter (fun el => element_kind el = KLane)
               (layout "R4" DEFAULT_MODEL)) = 9%nat
  /\ length (filter (fun el => element_kind el = KTile)
               (layout "R4" DEFAULT_MODEL)) = 20%nat
  /\ length t = 33%nat
  /\ console_lines repr_integral_float t = 53%nat.
Proof. vm_compute. repeat split. Qed.

(** One theme, one activity, five stories of five teams: the fifth tile
    opens the second row, and each tile has the color of its team and the
    Backlog marker. *)
Example five_stories :
  let teams := ["IHM"; "BPM"; "Métier"; "Finance"; "MO"] in
  let model :=
    mkModel None (Some
      [ theme "T1"
          [ activity "A1"
              ((fun team => story ("s " +:+ team) "S1" team "Backlog")
                 <$> teams) ] ]) in
  let tiles :=
    filter (fun el => element_kind el = KTile) (layout "R4" model) in
  element_kind <$> layout "R4" model
  = [KFrame; KLane; KTile; KTile; KTile; KTile; KTile]
  /\ element_position <$> tiles
     = [ (PyFloat (-2600), PyFloat (-1470));
         (PyFloat (-2340), PyFloat (-1470));
         (PyFloat (-2080), PyFloat (-1470));
         (PyFloat (-1820), PyFloat (-1470));
         (PyFloat (-2600), PyFloat (-1300)) ]
  /\ omap (fun el => match el with
                     | TileElement _ _ _ _ color marker _ =>
                         Some (color, marker)
                     | _ => None
                     end) tiles
     = [ ("light_yellow", "⬜️"); ("light_green", "⬜️");
         ("light_blue", "⬜️"); ("light_blue", "⬜️");
         ("light_pink", "⬜️") ].
Proof. vm_compute. repeat split. Qed.

(** ** More on placement *)

Section GridFacts.
Local Open Scope Z_scope.

(** For any count, not only a length. *)
Lemma sticky_grid_positions_any start_x start_y columns count :
  columns ≠ 0 ->
  sticky_grid_positions start_x start_y columns count
  = Ok ((fun k => grid_cell start_x start_y columns (Z.of_nat k))
          <$> seq 0 (Z.to_nat count)).
Proof.
  intros Hc. destruct (Z_lt_le_dec 0 count) as [Hpos|Hneg].
  - rewrite <- (Z2Nat.id count) at 1 by lia.
    by apply sticky_grid_positions_spec.
  - rewrite sticky_grid_positions_empty by done.
    by replace (Z.to_nat count) with 0%nat by lia.
Qed.

(** Two indices that differ are in different rows or different columns. *)
Lemma grid_cells_apart (columns i j : Z) :
  columns ≠ 0 -> i ≠ j ->
  1 <= Z.abs (i mod columns - j mod columns)
  \/ 1 <= Z.abs (i / columns - j / columns).
Proof.
  intros Hc Hij.
  destruct (Z.eq_dec (i / columns) (j / columns)) as [Hrow|Hrow]; [|lia].
  left. pose proof (Z.div_mod i columns Hc).
  pose proof (Z.div_mod j columns Hc).
  assert (i mod columns ≠ j mod columns) by congruence. lia.
Qed.

End GridFacts.

(** X1: within the range where no int is too large to become a float
    (integer starts, for which nothing is converted, or a column count and a
    count below 2^1000 in magnitude), [sticky_grid_positions] fails in one
    case only, a column count of 0 with at least one tile to place, and
    then with ZeroDivisionError; with a count of 0 or below it returns the
    empty list, whatever the column count; otherwise it returns one
    position per index of [range(count)]. *)
Theorem sticky_grid_positions_outcome (start_x start_y : pynum)
    (columns count : Z) :
  match start_x, start_y with
  | PyInt _, PyInt _ => True
  | _, _ => (Z.abs columns < 2 ^ 1000 /\ count < 2 ^ 1000)%Z
  end ->
  match sticky_grid_positions start_x start_y columns count with
  | Ok positions =>
      length positions = Z.to_nat count
      /\ (columns ≠ 0 \/ count <= 0)%Z
      /\ ((count <= 0)%Z -> positions = [])
  | Raise e => e = ZeroDivisionError /\ columns = 0%Z /\ (0 < count)%Z
  end.
Proof.
  intros _. destruct (Z.eq_dec columns 0%Z) as [->|Hc].
  - destruct (Z_lt_le_dec 0%Z count) as [Hpos|Hneg].
    + by rewrite sticky_grid_positions_zero_columns.
    + rewrite sticky_grid_positions_empty by done.
      split; [cbn; lia|]. split; [by right | done].
  - rewrite sticky_grid_positions_any by done.
    rewrite length_fmap, length_seq. split; [done|]. split; [by left|].
    intros Hneg. by replace (Z.to_nat count) with 0%nat by lia.
Qed.

(** X1 at the grid of a lane of five stories, from a float start, with
    four columns and with none. *)
Lemma sticky_grid_positions_outcome_witness :
  match sticky_grid_positions (PyFloat (-2600)) (PyFloat (-1470)) 4 5 with
  | Ok positions => length positions = 5%nat
  | Raise _ => False
  end
  /\ match sticky_grid_positions (PyFloat (-2600)) (PyFloat (-1470)) 0 5 with
     | Ok _ => False
     | Raise e => e = ZeroDivisionError
     end.
Proof.
  assert (Z.abs 4 < 2 ^ 1000 /\ 5 < 2 ^ 1000)%Z as H4
    by (split; reflexivity).
  assert (Z.abs 0 < 2 ^ 1000 /\ 5 < 2 ^ 1000)%Z as H0
    by (split; reflexivity).
  pose proof (sticky_grid_positions_outcome (PyFloat (-2600))
                (PyFloat (-1470)) 4 5 H4) as Hfour.
  pose proof (sticky_grid_positions_outcome (PyFloat (-2600))
                (PyFloat (-1470)) 0 5 H0) as Hzero.
  split.
  - destruct (sticky_grid_positions _ _ 4 5) as [positions|e].
    + exact (proj1 Hfour).
    + destruct Hfour as (_ & Hcolumns & _). discriminate Hcolumns.
  - destruct (sticky_grid_positions _ _ 0 5) as [positions|e].
    + destruct Hzero as (_ & [Hcolumns|Hcount] & _); [done | lia].
    + exact (proj1 Hzero).
Defined.

(** X2: from an integer start, the positions [sticky_grid_positions]
    returns are integers, and any two of them are at least a tile and its
    gap apart, horizontally (STICKY_W + STICKY_GAP_X) or vertically
    (STICKY_H + STICKY_GAP_Y): tiles of that size never overlap, whatever
    the column count. *)
Theorem sticky_grid_no_overlap (start_x start_y columns count : Z)
    (positions : list (pynum * pynum)) (i j : nat) (pi pj : pynum * pynum) :
  sticky_grid_positions (PyInt start_x) (PyInt start_y) columns count
  = Ok positions ->
  positions !! i = Some pi ->
  positions !! j = Some pj ->
  i ≠ j ->
  exists xi yi xj yj : Z,
    pi = (PyInt xi, PyInt yi) /\ pj = (PyInt xj, PyInt yj)
    /\ (STICKY_W + STICKY_GAP_X <= Z.abs (xi - xj)
        \/ STICKY_H + STICKY_GAP_Y <= Z.abs (yi - yj))%Z.
Proof.
  intros Hok Hi Hj Hij.
  assert (columns ≠ 0%Z) as Hc.
  { intros ->. pose proof (sticky_grid_positions_zero_columns
      (PyInt start_x) (PyInt start_y) count) as Hz.
    destruct (Z_lt_le_dec 0%Z count) as [Hpos|Hneg].
    - rewrite Hz in Hok by done. discriminate.
    - rewrite sticky_grid_positions_empty in Hok by done.
      injection Hok as <-. discriminate. }
  rewrite sticky_grid_positions_any in Hok by done. injection Hok as <-.
  rewrite list_lookup_fmap in Hi, Hj.
  destruct (seq 0 (Z.to_nat count) !! i) as [i'|] eqn:Hsi; [|done].
  destruct (seq 0 (Z.to_nat count) !! j) as [j'|] eqn:Hsj; [|done].
  apply lookup_seq in Hsi as [-> _]. apply lookup_seq in Hsj as [-> _].
  injection Hi as <-. injection Hj as <-. cbn [Nat.add].
  eexists _, _, _, _. split; [reflexivity|]. split; [reflexivity|].
  unfold STICKY_W, STICKY_GAP_X, STICKY_H, STICKY_GAP_Y.
  destruct (grid_cells_apart columns (Z.of_nat i) (Z.of_nat j) Hc) as [H|H];
    [lia | left | right]; lia.
Qed.

(** X2 at a grid of 3 columns and 5 tiles: the tiles of index 1 and 4. *)
Lemma sticky_grid_no_overlap_witness :
  exists xi yi xj yj : Z,
    (PyInt 360, PyInt 50) = (PyInt xi, PyInt yi)
    /\ (PyInt 360, PyInt 220) = (PyInt xj, PyInt yj)
    /\ (STICKY_W + STICKY_GAP_X <= Z.abs (xi - xj)
        \/ STICKY_H + STICKY_GAP_Y <= Z.abs (yi - yj))%Z.
Proof.
  apply (sticky_grid_no_overlap 100 50 3 5
           [ (PyInt 100, PyInt 50); (PyInt 360, PyInt 50);
             (PyInt 620, PyInt 50); (PyInt 100, PyInt 220);
             (PyInt 360, PyInt 220) ] 1 4);
    [reflexivity | reflexivity | reflexivity | lia].
Defined.

(** X3: [compute_frame_origin] lays frames on a grid of integer points
    that starts at (ORIGIN_X, ORIGIN_Y), one column every FRAME_W + COL_GAP
    and one row every FRAME_H + ROW_GAP; two different cells are at least
    that far apart in one direction, so that frames of FRAME_W by FRAME_H
    never touch.  Indices may be negative. *)
Theorem compute_frame_origin_grid (col_idx row_idx col_idx' row_idx' : Z) :
  compute_frame_origin 0 0 = (PyInt ORIGIN_X, PyInt ORIGIN_Y)
  /\ exists x y x' y' : Z,
       compute_frame_origin col_idx row_idx = (PyInt x, PyInt y)
       /\ compute_frame_origin col_idx' row_idx' = (PyInt x', PyInt y')
       /\ (x' - x = (col_idx' - col_idx) * (FRAME_W + COL_GAP))%Z
       /\ (y' - y = (row_idx' - row_idx) * (FRAME_H + ROW_GAP))%Z
       /\ ((col_idx, row_idx) ≠ (col_idx', row_idx') ->
           (FRAME_W + COL_GAP <= Z.abs (x - x')
            \/ FRAME_H + ROW_GAP <= Z.abs (y - y'))%Z).
Proof.
  split; [reflexivity|].
  eexists _, _, _, _. split; [reflexivity|]. split; [reflexivity|].
  unfold FRAME_W, COL_GAP, FRAME_H, ROW_GAP.
  split; [lia|]. split; [lia|]. intros Hne.
  destruct (Z.eq_dec col_idx col_idx') as [->|Hcol].
  - right. assert (row_idx ≠ row_idx') by congruence. lia.
  - left. lia.
Qed.

(** ** More on runs in apply mode *)

Section ApplyRuns.
Context {Sink : Type} (sink_post : Sink -> request -> response * Sink).
Variables (board_id token : string).
Implicit Types s : Sink.

(** One dispatch in apply mode: the block of the element when the call is
    answered, the call alone and its exception otherwise. *)
Lemma dispatch_answered el s :
  let rq := creation_request board_id token el in
  let rs := (sink_post s rq).1 in
  dispatch sink_post board_id token false el s
  = if answered rs
    then (Ok tt, creation_block board_id token el rs, (sink_post s rq).2)
    else (Raise (failure_of rq rs), [Posted rq rs], (sink_post s rq).2).
Proof.
  cbn zeta. rewrite dispatch_apply. cbn zeta.
  unfold answered, failure_of, creation_block, response_id.
  destruct (400 <=? status_code _)%Z; [done|].
  by destruct (resp_json _) as [[out|type_name]|].
Qed.

(** The trace of a run: the blocks of the elements created, in order, and
    after them the call that stopped the run, if one did. *)
Lemma apply_run_shape (els : list PlacedElement) s :
  let run := for_each els (dispatch sink_post board_id token false) s in
  exists rss : list response,
    Forall (fun rs => answered rs = true) rss
    /\ match outcome run with
       | Ok _ =>
           length rss = length els
           /\ trace run
              = concat (zip_with (creation_block board_id token) els rss)
       | Raise e =>
           exists el rs,
             els !! length rss = Some el
             /\ answered rs = false
             /\ e = failure_of (creation_request board_id token el) rs
             /\ trace run
                = concat (zip_with (creation_block board_id token) els rss)
                  ++ [Posted (creation_request board_id token el) rs]
       end.
Proof.
  cbn zeta. revert s. induction els as [|el els IH]; intros s.
  { exists []. split; [constructor | done]. }
  cbn [for_each]. rewrite bind_run, dispatch_answered. cbn zeta.
  set (rs := (sink_post s (creation_request board_id token el)).1).
  set (s1 := (sink_post s (creation_request board_id token el)).2).
  destruct (answered rs) eqn:Hrs.
  - destruct (IH s1) as (rss & Hall & Hrun). exists (rs :: rss).
    split; [by constructor|]. unfold outcome, trace in *. cbn [fst snd] in *.
    destruct (for_each els _ s1) as [[[[]|e] t] s2]; cbn [fst snd] in *.
    + destruct Hrun as [Hlen ->]. cbn [length zip_with concat].
      by rewrite Hlen.
    + destruct Hrun as (el' & rs' & Hel & Hrs' & -> & ->).
      exists el', rs'. cbn [length zip_with concat].
      by rewrite <- app_assoc.
  - exists []. split; [constructor|]. unfold outcome, trace. cbn [fst snd].
    by exists el, rs.
Qed.

Lemma requests_creation_block el rs :
  requests (creation_block board_id token el rs)
  = [creation_request board_id token el].
Proof. by destruct el. Qed.

Lemma requests_blocks (els : list PlacedElement) (rss : list response) :
  requests (concat (zip_with (creation_block board_id token) els rss))
  = creation_request board_id token <$> take (length rss) els.
Proof.
  revert rss. induction els as [|el els IH]; intros [|rs rss]; try done.
  cbn [zip_with concat length take fmap list_fmap]. unfold requests in *.
  rewrite omap_app. fold (requests (creation_block board_id token el rs)).
  by rewrite requests_creation_block, IH.
Qed.

(** The pause after the creation of an element. *)
Lemma paused_creation_block el rs :
  paused (creation_block board_id token el rs)
  = match element_kind el with
    | KFrame => 200
    | KLane => 150
    | KTile => 120
    end%Z.
Proof. by destruct el. Qed.

Lemma paused_app t1 t2 : paused (t1 ++ t2) = (paused t1 + paused t2)%Z.
Proof.
  induction t1 as [|ev t1 IH]; [done|].
  cbn [app paused foldr]. fold (paused (t1 ++ t2)). fold (paused t1).
  destruct ev; lia.
Qed.

Lemma paused_blocks (els : list PlacedElement) (rss : list response) :
  length rss = length els ->
  paused (concat (zip_with (creation_block board_id token) els rss))
  = let count k :=
      Z.of_nat (length (filter (fun el => element_kind el = k) els)) in
    (200 * count KFrame + 150 * count KLane + 120 * count KTile)%Z.
Proof.
  cbn zeta.
  revert rss. induction els as [|el els IH]; intros [|rs rss] Hlen; try done.
  cbn [zip_with concat]. rewrite paused_app, paused_creation_block.
  rewrite IH by (cbn in Hlen; lia). rewrite !filter_cons.
  destruct el; cbn [element_kind];
    repeat (first [rewrite decide_True by done | rewrite decide_False by done]);
    cbn [length]; lia.
Qed.

End ApplyRuns.

(** X4: in apply mode the calls a run makes are the creation calls of the
    elements of the story map, in traversal order, up to the point where the
    run stops: all of them when the run completes, at least one when it
    fails.  What is sent does not depend on the answers of the Sink, and
    every call carries the token as a Bearer authorization, with a JSON
    content type. *)
Theorem apply_requests {Sink : Type}
    (sink_post : Sink -> request -> response * Sink)
    (board_id token prefix : string) (model : Model) (s : Sink) :
  let run := render_storymap sink_post board_id token prefix false model s in
  let calls := creation_request board_id token <$> layout prefix model in
  requests (trace run) `prefix_of` calls
  /\ match outcome run with
     | Ok _ => requests (trace run) = calls
     | Raise _ => requests (trace run) ≠ []
     end
  /\ Forall (fun rq =>
       req_headers rq
       = [ ("Authorization", "Bearer " +:+ token);
           ("Content-Type", "application/json") ])
       (requests (trace run)).
Proof.
  cbn zeta. rewrite render_storymap_dispatch.
  destruct (apply_run_shape sink_post board_id token (layout prefix model) s)
    as (rss & _ & Hrun).
  assert (forall n,
    creation_request board_id token <$> take n (layout prefix model)
    `prefix_of` creation_request board_id token <$> layout prefix model)
    as Htake.
  { intros n. rewrite <- (take_drop n (layout prefix model)) at 2.
    rewrite fmap_app. by apply prefix_app_r. }
  assert (forall els : list PlacedElement,
    Forall (fun rq => req_headers rq = _auth_headers token)
      (creation_request board_id token <$> els)) as Hheaders.
  { intros els. apply Forall_fmap, Forall_forall. by intros []. }
  destruct (outcome _) as [[]|e].
  - destruct Hrun as [Hlen ->]. rewrite requests_blocks, Hlen, firstn_all.
    split; [done|]. split; [done|]. apply Hheaders.
  - destruct Hrun as (el & rs & Hel & _ & _ & ->).
    unfold requests. rewrite omap_app.
    fold (requests (concat (zip_with (creation_block board_id token)
                              (layout prefix model) rss))).
    rewrite requests_blocks. cbn [omap list_omap].
    replace ((creation_request board_id token
                <$> take (length rss) (layout prefix model))
             ++ [creation_request board_id token el])
      with (creation_request board_id token
              <$> take (S (length rss)) (layout prefix model)).
    2:{ rewrite (take_S_r _ _ el) by done. by rewrite fmap_app. }
    split; [apply Htake|]. split; [|apply Hheaders].
    rewrite (take_S_r _ _ el) by done. rewrite fmap_app.
    intros Hnil. by apply app_nil in Hnil as [_ ?].
Qed.


(** X6: an apply run that completes leaves, for each element of the story
    map in traversal order, the creation call, which the Sink answered with
    a status below 400 and a JSON object, then the confirmation line with
    the entry [id] of that object as [str] shows it ([None] when the object
    has none), then the pause; it pauses 0.2 s per frame, 0.15 s per lane
    and 0.12 s per tile. *)
Theorem apply_completed {Sink : Type}
    (sink_post : Sink -> request -> response * Sink)
    (board_id token prefix : string) (model : Model) (s : Sink) :
  let run := render_storymap sink_post board_id token prefix false model s in
  let count k :=
    Z.of_nat (length (filter (fun el => element_kind el = k)
                        (layout prefix model))) in
  outcome run = Ok tt ->
  (exists answers : list (response * gmap string string),
     length answers = length (layout prefix model)
     /\ Forall (fun '(rs, entries) =>
                (status_code rs < 400)%Z
                /\ resp_json rs = Some (JsonObject entries)) answers
     /\ trace run
        = concat
            (zip_with
               (fun el '(rs, entries) =>
                  Posted (creation_request board_id token el) rs
                  :: confirmation el (entries !! "id"))
               (layout prefix model) answers))
  /\ length (trace run) = (3 * length (layout prefix model))%nat
  /\ paused (trace run)
     = (200 * count KFrame + 150 * count KLane + 120 * count KTile)%Z.
Proof.
  cbn zeta. rewrite render_storymap_dispatch. intros Hok.
  destruct (apply_run_shape sink_post board_id token (layout prefix model) s)
    as (rss & Hall & Hrun).
  rewrite Hok in Hrun. destruct Hrun as [Hlen Htrace]. rewrite Htrace.
  split; [|split; [|by apply paused_blocks]].
  - clear Htrace Hok. revert rss Hall Hlen.
    induction (layout prefix model) as [|el els IH];
      intros [|rs rss] Hall Hlen; try done.
    { by exists []. }
    apply Forall_cons in Hall as [Hrs Hall].
    destruct (IH rss Hall) as (answers & Hl & Hobj & Heq);
      [cbn in Hlen; lia|].
    unfold answered in Hrs. apply andb_true_iff in Hrs as [Hst Hrs].
    apply negb_true_iff in Hst.
    destruct (resp_json rs) as [[entries|type_name]|] eqn:Hjson; try done.
    exists ((rs, entries) :: answers). split; [cbn; by rewrite Hl|].
    split; [constructor; [split; [lia | done] | done]|].
    cbn [zip_with concat]. rewrite Heq. f_equal.
    unfold creation_block, response_id. by rewrite Hjson.
  - clear Htrace Hok Hall. revert rss Hlen.
    induction (layout prefix model) as [|el els IH]; intros [|rs rss] Hlen;
      try done.
    cbn [zip_with concat]. rewrite length_app, IH by (cbn in Hlen; lia).
    unfold creation_block. destruct el; cbn [confirmation length]; lia.
Qed.

(** X6 at the story map of one story, against a Sink that creates every
    element: 9 steps, and 0.47 s of pauses. *)
Lemma apply_completed_witness :
  let run :=
    render_storymap (scripted_post (created "x")) "B" "tok" "R4" false
      small_model [] in
  length (trace run) = 9%nat /\ paused (trace run) = 470%Z.
Proof.
  destruct (apply_completed (scripted_post (created "x")) "B" "tok" "R4"
              small_model [] eq_refl) as (_ & Hlen & Hpaused).
  exact (conj Hlen Hpaused).
Defined.

(** X7: the preview shows what an apply run places.  The elements an apply
    run asks the Sink to create, with their kinds and positions, are those
    the preview of the same story map describes, in the same order: all of
    them when the run completes, the first ones when it fails.  The preview
    needs neither the Sink nor the token of the run. *)
Theorem preview_shows_what_apply_places {Sink Sink' : Type}
    (sink_post : Sink -> request -> response * Sink)
    (sink_post' : Sink' -> request -> response * Sink')
    (board_id token token' prefix : string) (model : Model)
    (s : Sink) (s' : Sink') :
  let run := render_storymap sink_post board_id token prefix false model s in
  let preview :=
    render_storymap sink_post' board_id token' prefix true model s' in
  placements board_id (trace run)
    `prefix_of` placements board_id (trace preview)
  /\ match outcome run with
     | Ok _ =>
         placements board_id (trace run) = placements board_id (trace preview)
     | Raise _ => True
     end.
Proof.
  cbn zeta. rewrite !render_storymap_dispatch.
  destruct (placements_for_each sink_post board_id token false
              (layout prefix model) s) as [Hpre Hall].
  destruct (placements_for_each sink_post' board_id token' true
              (layout prefix model) s') as [_ Hdry].
  rewrite for_each_dispatch_dry in Hdry. cbn zeta in *.
  rewrite for_each_dispatch_dry.
  rewrite (Hdry eq_refl). split; [done|].
  destruct (outcome _) as [[]|e]; [by apply Hall | done].
Qed.

(** X8: whatever the team and the status of a story, known or not, given
    or missing, its tile has one of the four colors of the configuration,
    and its text starts with one of the six status markers, followed by a
    space and the title. *)
Theorem tile_style_is_known (st : Story) :
  sticky_color st
    ∈ ["light_yellow"; "light_green"; "light_blue"; "light_pink"]
  /\ exists marker,
       marker ∈ ["⬜️"; "🟦"; "🟨"; "🟥"; "🟪"; "✅"]
       /\ sticky_text st
          = marker +:+ " " +:+ default "Story" (story_title st) +:+ nl
            +:+ "[" +:+ default "MO" (story_team st) +:+ "] ["
            +:+ default "S?" (story_sprint st) +:+ "]".
Proof.
  split.
  - unfold sticky_color, dict_get.
    destruct (TEAM_COLOR !! _) as [color|] eqn:Hcolor; [|by left].
    apply elem_of_list_to_map_2 in Hcolor. cbn [default from_option id].
    assert (color ∈ TEAM_COLOR_items.*2) as Hin.
    { apply list_elem_of_fmap. eexists. by split; [|exact Hcolor]. }
    unfold TEAM_COLOR_items in Hin. cbn [fmap list_fmap snd] in Hin.
    rewrite !elem_of_cons in Hin. rewrite !elem_of_cons.
    intuition auto.
  - unfold sticky_text. cbn zeta. eexists. split; [|reflexivity].
    unfold dict_get.
    destruct (STATUS_EMOJI !! _) as [marker|] eqn:Hmarker; [|by left].
    apply elem_of_list_to_map_2 in Hmarker. cbn [default from_option id].
    assert (marker ∈ STATUS_EMOJI_items.*2) as Hin.
    { apply list_elem_of_fmap. eexists. by split; [|exact Hmarker]. }
    unfold STATUS_EMOJI_items in Hin. cbn [fmap list_fmap snd] in Hin.
    exact Hin.
Qed.

(** ** Names and printed texts *)

Lemma omap_blocks {A B C} (g : B -> option C) (f : nat -> A -> list B)
    (h : nat -> A -> list C) (l : list A) :
  (forall i a, omap g (f i a) = h i a) ->
  omap g (concat (imap f l)) = concat (imap h l).
Proof.
  revert f h. induction l as [|a l IH]; intros f h Hf; [done|].
  cbn [imap concat]. rewrite omap_app, Hf. f_equal. apply IH.
  intros i a'. apply Hf.
Qed.

Lemma omap_none {A B} (g : A -> option B) (l : list A) :
  Forall (fun a => g a = None) l -> omap g l = [].
Proof. induction 1 as [|a l Ha _ IH]; [done|]. cbn. by rewrite Ha. Qed.

Lemma concat_singletons {A B} (h : nat -> A -> B) (l : list A) :
  concat (imap (fun i a => [h i a]) l) = imap h l.
Proof.
  revert h. induction l as [|a l IH]; intros h; [done|].
  cbn [imap concat app]. f_equal. apply IH.
Qed.

Lemma imap_const {A B} (h : A -> B) (l : list A) :
  imap (fun _ a => h a) l = h <$> l.
Proof. induction l as [|a l IH]; [done|]. cbn. f_equal. apply IH. Qed.

Section Titles.
Context {Sink : Type} (sink_post : Sink -> request -> response * Sink).
Variables (board_id token : string).

(** The titles a run prints are those of the elements it went through. *)
Lemma titles_of_preview (els : list PlacedElement) :
  omap frame_title_of ((fun el => Printed (describe el)) <$> els)
  = omap frame_title_in els
  /\ omap lane_title_of ((fun el => Printed (describe el)) <$> els)
     = omap lane_title_in els.
Proof.
  induction els as [|el els [IH1 IH2]]; [done|].
  cbn [fmap list_fmap omap list_omap].
  fold (omap frame_title_of ((fun el => Printed (describe el)) <$> els)).
  fold (omap lane_title_of ((fun el => Printed (describe el)) <$> els)).
  fold (omap frame_title_in els). fold (omap lane_title_in els).
  rewrite IH1, IH2. by destruct el.
Qed.

Lemma titles_of_blocks (els : list PlacedElement) (rss : list response) :
  length rss = length els ->
  omap frame_title_of
    (concat (zip_with (creation_block board_id token) els rss))
  = omap frame_title_in els
  /\ omap lane_title_of
       (concat (zip_with (creation_block board_id token) els rss))
     = omap lane_title_in els.
Proof.
  revert rss. induction els as [|el els IH]; intros [|rs rss] Hlen; try done.
  destruct (IH rss) as [IH1 IH2]; [cbn in Hlen; lia|].
  cbn [zip_with concat]. rewrite !omap_app, IH1, IH2. by destruct el.
Qed.

End Titles.

Lemma frame_titles_of_layout prefix model :
  omap frame_title_in (layout prefix model)
  = imap (frame_title prefix) (default [] (model_themes model)).
Proof.
  unfold layout.
  rewrite (omap_blocks _ _ (fun i th => [frame_title prefix i th])).
  - apply concat_singletons.
  - intros i th. unfold layout_theme. cbn [omap list_omap frame_title_in].
    f_equal. apply omap_none, Forall_concat, Forall_imap. intros j act.
    constructor; [done|]. by apply Forall_imap.
Qed.

Lemma lane_titles_of_layout prefix model :
  omap lane_title_in (layout prefix model)
  = concat ((fun th => imap lane_title (default [] (theme_activities th)))
              <$> default [] (model_themes model)).
Proof.
  unfold layout.
  rewrite (omap_blocks _ _
    (fun _ th => imap lane_title (default [] (theme_activities th)))).
  - by rewrite imap_const.
  - intros i th. unfold layout_theme. cbn [omap list_omap lane_title_in].
    rewrite (omap_blocks _ _ (fun j act => [lane_title j act])).
    + apply concat_singletons.
    + intros j act. unfold layout_lane. cbn [omap list_omap lane_title_in].
      f_equal. apply omap_none. by apply Forall_imap.
Qed.

(** X9: the names a run shows.  A frame is titled with the prefix, an en
    dash between spaces, and the name of its theme; a theme without a name
    is called "Theme n" and an activity without a name "Activité n", where
    n counts from 1 and, for activities, starts again in every theme.  A
    run that completes, in either mode, prints these titles in order, one
    per theme and one per activity. *)
Theorem fallback_names_count_from_one {Sink : Type}
    (sink_post : Sink -> request -> response * Sink)
    (board_id token prefix : string) (dry_run : bool) (model : Model)
    (s : Sink) :
  let run :=
    render_storymap sink_post board_id token prefix dry_run model s in
  let themes := default [] (model_themes model) in
  outcome run = Ok tt ->
  omap frame_title_of (trace run)
  = imap (fun i th =>
            prefix +:+ " – "
            +:+ default ("Theme " +:+ str_of_Z (Z.of_nat i + 1))
                  (theme_name th)) themes
  /\ omap lane_title_of (trace run)
     = concat
         ((fun th =>
             imap (fun j act =>
                     default ("Activité " +:+ str_of_Z (Z.of_nat j + 1))
                       (act_name act))
               (default [] (theme_activities th))) <$> themes).
Proof.
  cbn zeta. rewrite render_storymap_dispatch. intros Hok.
  change (omap frame_title_of
            (trace (for_each (layout prefix model)
                      (dispatch sink_post board_id token dry_run) s))
          = imap (frame_title prefix) (default [] (model_themes model))
          /\ omap lane_title_of
               (trace (for_each (layout prefix model)
                         (dispatch sink_post board_id token dry_run) s))
             = concat
                 ((fun th =>
                     imap lane_title (default [] (theme_activities th)))
                    <$> default [] (model_themes model))).
  rewrite <- (frame_titles_of_layout prefix), <- (lane_titles_of_layout prefix).
  destruct dry_run.
  - rewrite for_each_dispatch_dry. apply titles_of_preview.
  - destruct (apply_run_shape sink_post board_id token (layout prefix model) s)
      as (rss & _ & Hrun).
    rewrite Hok in Hrun. destruct Hrun as [Hlen ->].
    by apply titles_of_blocks.
Qed.

(** X9 at a story map whose second theme has no name, and whose
    activities have none: the preview calls them "Theme 2", "Activité 1"
    and "Activité 2", then "Activité 1" again. *)
Lemma fallback_names_count_from_one_witness :
  let model :=
    mkModel None (Some
      [ mkTheme (Some "Paiement")
          (Some [ mkActivity None None; mkActivity None None ]);
        mkTheme None (Some [ mkActivity None (Some []) ]) ]) in
  let run :=
    render_storymap (scripted_post (created "x")) "B" "tok" "R4" true model
      [] in
  omap frame_title_of (trace run) = ["R4 – Paiement"; "R4 – Theme 2"]
  /\ omap lane_title_of (trace run)
     = ["Activité 1"; "Activité 2"; "Activité 1"].
Proof.
  exact (fallback_names_count_from_one (scripted_post (created "x")) "B"
           "tok" "R4" true
           (mkModel None (Some
              [ mkTheme (Some "Paiement")
                  (Some [ mkActivity None None; mkActivity None None ]);
                mkTheme None (Some [ mkActivity None (Some []) ]) ]))
           [] eq_refl).
Defined.

Section Console.
Context {Sink : Type} (sink_post : Sink -> request -> response * Sink).
Variables (board_id token : string) (repr_float : float -> string).

(** A property of every step of every turn holds for the whole loop. *)
Lemma Forall_trace_for_each {A} (P : event -> Prop) (l : list A)
    (body : A -> M Sink unit) (s : Sink) :
  (forall a s1, Forall P (trace (body a s1))) ->
  Forall P (trace (for_each l body s)).
Proof.
  intros Hbody. revert s. induction l as [|a l IH]; intros s; [constructor|].
  cbn [for_each]. rewrite bind_run. specialize (Hbody a s).
  destruct (body a s) as [[[[]|e] t1] s1]; [|done].
  unfold trace in *. cbn [fst snd] in *. apply Forall_app. split; [done|].
  apply IH.
Qed.

Lemma dry_tag_dispatch dry_run el s :
  Forall (fun ev =>
    forall m, ev = Printed m ->
    starts_with "[DRY] " (message_text repr_float m) = dry_run)
    (trace (dispatch sink_post board_id token dry_run el s)).
Proof.
  destruct dry_run.
  - rewrite dispatch_dry. constructor; [|constructor].
    intros m [= <-]. by destruct el.
  - rewrite dispatch_answered. cbn zeta.
    destruct (answered _); unfold trace; cbn [fst snd].
    + unfold creation_block. constructor; [done|].
      destruct el; cbn [confirmation];
        (constructor; [by intros m [= <-] | constructor; [done|constructor]]).
    + constructor; [done|constructor].
Qed.

End Console.

(** X10: each [print] tells the mode.  The text every [print] call of a dry
    run writes starts with "[DRY] " and is a description; the text no
    [print] call of an apply run writes does, it is a confirmation; and
    only an apply run makes calls or pauses.  This is said of the text of
    one call, from its first character: such a text may hold a newline (that
    of a tile does), and what follows the newline on the console is the
    story's own "[team] [sprint]". *)
Theorem each_print_tells_the_mode {Sink : Type}
    (sink_post : Sink -> request -> response * Sink)
    (repr_float : float -> string)
    (board_id token prefix : string) (dry_run : bool) (model : Model)
    (s : Sink) :
  Forall (fun ev =>
    match ev with
    | Printed m =>
        starts_with "[DRY] " (message_text repr_float m) = dry_run
        /\ match m with
           | DryFrame _ _ _ | DryLane _ _ _ | DrySticky _ _ _ _ =>
               dry_run = true
           | FrameCreated _ _ | LaneCreated _ _ | StickyCreated _ _ =>
               dry_run = false
           end
    | Posted _ _ | Slept _ => dry_run = false
    end)
    (trace (render_storymap sink_post board_id token prefix dry_run model s)).
Proof.
  rewrite render_storymap_dispatch. apply Forall_trace_for_each.
  intros el s1.
  pose proof (dry_tag_dispatch sink_post board_id token repr_float dry_run
                el s1) as Htag.
  destruct dry_run.
  - rewrite dispatch_dry in *. unfold trace in *. cbn [fst snd] in *.
    constructor; [|constructor]. apply Forall_cons in Htag as [Htag _].
    split; [by apply Htag | by destruct el].
  - rewrite dispatch_answered in *. cbn zeta in *.
    destruct (answered _); unfold trace in *; cbn [fst snd] in *.
    + unfold creation_block in *. constructor; [done|].
      apply Forall_cons in Htag as [_ Htag].
      destruct el; cbn [confirmation] in *;
        apply Forall_cons in Htag as [Htag _];
        (constructor; [split; [by apply Htag | done]
                      | constructor; [done|constructor]]).
    + constructor; [done|constructor].
Qed.

(** ** More on the loader *)

Section Counting.




(** Counting the elements of blocks laid end to end. *)
Lemma length_filter_blocks {A B} (P : B -> Prop) `{!forall x, Decision (P x)}
    (f : nat -> A -> list B) (g : A -> nat) (l : list A) :
  (forall i a, length (filter P (f i a)) = g a) ->
  length (filter P (concat (imap f l))) = sum_list (g <$> l).
Proof.
  revert f. induction l as [|a l IH]; intros f Hf; [done|].
  cbn [imap concat fmap list_fmap sum_list id].
  rewrite filter_app, length_app, Hf. f_equal. apply IH. intros i a'. apply Hf.
Qed.

End Counting.

Section LayoutCount.
Implicit Types (k : kind) (els : list PlacedElement).

Lemma length_imap {A B} (f : nat -> A -> B) (l : list A) :
  length (imap f l) = length l.
Proof.
  revert f. induction l as [|a l IH]; intros f; [done|]. cbn. by rewrite IH.
Qed.

Lemma layout_lane_count i fx fy j act :
  length (filter (fun el => element_kind el = KLane)
            (layout_lane i fx fy j act)) = 1
  /\ length (filter (fun el => element_kind el = KTile)
               (layout_lane i fx fy j act)) = activity_stories act
  /\ filter (fun el => element_kind el = KFrame) (layout_lane i fx fy j act)
     = [].
Proof.
  unfold layout_lane, activity_stories.
  set (tiles := imap _ _).
  assert (Forall (fun el => element_kind el = KTile) tiles) as Htiles
    by (by apply Forall_imap).
  rewrite filter_cons_True, !filter_cons_False by done.
  rewrite (filter_all (fun el => element_kind el = KTile)) by done.
  rewrite !filter_none.
  - unfold tiles. by rewrite length_imap.
  - eapply Forall_impl; [exact Htiles|]. intros el ->. done.
  - eapply Forall_impl; [exact Htiles|]. intros el ->. done.
Qed.

Lemma layout_theme_count prefix i th :
  length (filter (fun el => element_kind el = KFrame)
            (layout_theme prefix i th)) = 1
  /\ length (filter (fun el => element_kind el = KLane)
               (layout_theme prefix i th))
     = length (default [] (theme_activities th))
  /\ length (filter (fun el => element_kind el = KTile)
               (layout_theme prefix i th)) = theme_stories th.
Proof.
  unfold layout_theme, theme_stories. cbn zeta.
  rewrite filter_cons_True, !filter_cons_False by done. cbn [length].
  split; [|split].
  - f_equal.
    rewrite (length_filter_blocks _ _ (fun _ => 0)).
    + induction (default [] (theme_activities th)); done.
    + intros j act.
      by destruct (layout_lane_count i (box_x (frame_box i))
                     (box_y (frame_box i)) j act) as (_ & _ & ->).
  - rewrite (length_filter_blocks _ _ (fun _ => 1)).
    + induction (default [] (theme_activities th)) as [|a l IH]; [done|].
      cbn. by rewrite IH.
    + intros j act. apply layout_lane_count.
  - apply length_filter_blocks. intros j act. apply layout_lane_count.
Qed.

Lemma layout_count prefix model :
  length (filter (fun el => element_kind el = KFrame) (layout prefix model))
  = length (default [] (model_themes model))
  /\ length (filter (fun el => element_kind el = KLane) (layout prefix model))
     = sum_list ((fun th => length (default [] (theme_activities th)))
                   <$> default [] (model_themes model))
  /\ length (filter (fun el => element_kind el = KTile) (layout prefix model))
     = model_stories model.
Proof.
  unfold layout, model_stories. split; [|split].
  - rewrite (length_filter_blocks _ _ (fun _ => 1)).
    + induction (default [] (model_themes model)) as [|a l IH]; [done|].
      cbn. by rewrite IH.
    + intros i th. apply layout_theme_count.
  - apply length_filter_blocks. intros i th. apply layout_theme_count.
  - apply length_filter_blocks. intros i th. apply layout_theme_count.
Qed.

(** Every element is a frame, a lane title or a tile. *)
Lemma length_by_kind els :
  length els
  = length (filter (fun el => element_kind el = KFrame) els)
    + length (filter (fun el => element_kind el = KLane) els)
    + length (filter (fun el => element_kind el = KTile) els).
Proof.
  induction els as [|el els IH]; [done|]. rewrite !filter_cons.
  destruct el; cbn [element_kind];
    repeat (first [rewrite decide_True by done | rewrite decide_False by done]);
    cbn [length]; lia.
Qed.

End LayoutCount.

Section LoadedModels.
Variable str_lower : string -> string.
Implicit Types (fs own : list Fields) (f : Fields).











End LoadedModels.






(** X14: a story map renders as one frame per theme, one lane title per
    activity and one tile per story, a missing list counting as empty; the
    preview prints that many descriptions, and an apply run that completes
    makes that many calls. *)
Theorem one_element_per_entry {Sink : Type}
    (sink_post : Sink -> request -> response * Sink)
    (board_id token prefix : string) (model : Model) (s : Sink) :
  let themes := default [] (model_themes model) in
  let activities :=
    concat ((fun th => default [] (theme_activities th)) <$> themes) in
  let stories :=
    concat ((fun a => default [] (act_stories a)) <$> activities) in
  let entries := length themes + length activities + length stories in
  length (trace (render_storymap sink_post board_id token prefix true model s))
  = entries
  /\ match outcome (render_storymap sink_post board_id token prefix false
                      model s) with
     | Ok _ =>
         length (requests
                   (trace (render_storymap sink_post board_id token prefix
                             false model s))) = entries
     | Raise _ =>
         length (requests
                   (trace (render_storymap sink_post board_id token prefix
                             false model s))) <= entries
     end.
Proof.
  cbn zeta.
  assert (length (layout prefix model)
          = length (default [] (model_themes model))
            + length (concat ((fun th => default [] (theme_activities th))
                                <$> default [] (model_themes model)))
            + length (concat ((fun a => default [] (act_stories a))
                        <$> concat ((fun th => default [] (theme_activities th))
                                      <$> default [] (model_themes model)))))
    as Hlen.
  { rewrite length_by_kind.
    destruct (layout_count prefix model) as (-> & -> & ->).
    unfold model_stories. f_equal; [f_equal|].
    - induction (default [] (model_themes model)) as [|th l IH]; [done|].
      cbn [fmap list_fmap sum_list id concat]. by rewrite length_app, IH.
    - induction (default [] (model_themes model)) as [|th l IH]; [done|].
      cbn [fmap list_fmap sum_list id concat].
      rewrite fmap_app, concat_app, length_app, IH. f_equal.
      unfold theme_stories.
      induction (default [] (theme_activities th)) as [|a l' IH']; [done|].
      cbn [fmap list_fmap sum_list id concat]. by rewrite length_app, IH'. }
  rewrite <- Hlen. split.
  - rewrite render_storymap_dispatch, for_each_dispatch_dry.
    unfold trace. cbn [fst snd]. by rewrite length_fmap.
  - rewrite render_storymap_dispatch.
    destruct (apply_run_shape sink_post board_id token (layout prefix model) s)
      as (rss & _ & Hrun).
    destruct (outcome _) as [[]|e].
    + destruct Hrun as [Hrss ->].
      by rewrite requests_blocks, Hrss, firstn_all, length_fmap.
    + destruct Hrun as (el & rs & Hel & _ & _ & ->).
      unfold requests. rewrite omap_app.
      fold (requests (concat (zip_with (creation_block board_id token)
                                (layout prefix model) rss))).
      rewrite requests_blocks, length_app, length_fmap, length_take.
      apply lookup_lt_Some in Hel. cbn. lia.
Qed.

(** ** Blanks around cells *)

Section Utf8Facts.
Local Open Scope N_scope.

Lemma append_cons (x : ascii) (a r : string) :
  String x a +:+ r = String x (a +:+ r).
Proof. reflexivity. Qed.

Lemma append_nil_l (r : string) : "" +:+ r = r.
Proof. reflexivity. Qed.

Lemma append_assoc (a b c : string) : (a +:+ b) +:+ c = a +:+ (b +:+ c).
Proof.
  induction a as [|x a IH]; [done|]. by rewrite !append_cons, IH.
Qed.

(** Decoding reads back the code point that was encoded, and goes on with
    what follows. *)
Lemma decode_encode1 (c : N) (r : string) :
  c < 4194304 ->
  Utf8.decode (Utf8.encode1 c +:+ r) = c :: Utf8.decode r.
Proof.
  intros Hc. unfold Utf8.encode1.
  pose proof (N.div_mod c 64 ltac:(done)) as Hc1.
  pose proof (N.mod_lt c 64 ltac:(done)) as Hr1.
  pose proof (N.div_mod (c / 64) 64 ltac:(done)) as Hc2.
  pose proof (N.mod_lt (c / 64) 64 ltac:(done)) as Hr2.
  pose proof (N.div_mod (c / 64 / 64) 64 ltac:(done)) as Hc3.
  pose proof (N.mod_lt (c / 64 / 64) 64 ltac:(done)) as Hr3.
  assert (c / 4096 = c / 64 / 64) as H4096
    by (by rewrite N.Div0.div_div).
  assert (c / 262144 = c / 64 / 64 / 64) as H262144
    by (by rewrite !N.Div0.div_div).
  rewrite H4096, H262144.
  set (q1 := c / 64) in *. set (r1 := c mod 64) in *.
  set (q2 := q1 / 64) in *. set (r2 := q1 mod 64) in *.
  set (q3 := q2 / 64) in *. set (r3 := q2 mod 64) in *.
  destruct (N.ltb_spec c 128) as [H1|H1].
  { rewrite !append_cons, append_nil_l. cbn [Utf8.decode].
    unfold Utf8.byte, Utf8.chr.
    rewrite N_ascii_embedding by lia.
    by destruct (N.ltb_spec c 192) as [_|?]; [|lia]. }
  destruct (N.ltb_spec c 2048) as [H2|H2].
  { rewrite !append_cons, append_nil_l. cbn [Utf8.decode].
    unfold Utf8.byte, Utf8.chr.
    rewrite !N_ascii_embedding by lia.
    destruct (N.ltb_spec (192 + q1) 192) as [?|_]; [lia|].
    destruct (N.ltb_spec (192 + q1) 224) as [_|?]; [|lia].
    f_equal. lia. }
  destruct (N.ltb_spec c 65536) as [H3|H3].
  { rewrite !append_cons, append_nil_l. cbn [Utf8.decode].
    unfold Utf8.byte, Utf8.chr.
    rewrite !N_ascii_embedding by lia.
    destruct (N.ltb_spec (224 + q2) 192) as [?|_]; [lia|].
    destruct (N.ltb_spec (224 + q2) 224) as [?|_]; [lia|].
    destruct (N.ltb_spec (224 + q2) 240) as [_|?]; [|lia].
    f_equal. lia. }
  rewrite !append_cons, append_nil_l. cbn [Utf8.decode].
    unfold Utf8.byte, Utf8.chr.
  rewrite !N_ascii_embedding by lia.
  destruct (N.ltb_spec (240 + q3) 192) as [?|_]; [lia|].
  destruct (N.ltb_spec (240 + q3) 224) as [?|_]; [lia|].
  destruct (N.ltb_spec (240 + q3) 240) as [?|_]; [lia|].
  f_equal. lia.
Qed.

Lemma decode_encode_app (cs : list N) (r : string) :
  Forall (fun c => c < 1114112) cs ->
  Utf8.decode (Utf8.encode cs +:+ r) = cs ++ Utf8.decode r.
Proof.
  induction 1 as [|c cs Hc _ IH]; [done|].
  cbn [Utf8.encode fold_right]. fold (Utf8.encode cs).
  rewrite append_assoc, decode_encode1 by lia. by rewrite IH.
Qed.

(** A well-formed string followed by another decodes piece by piece. *)
Lemma decode_app (v r : string) :
  well_formed v = true ->
  Utf8.decode (v +:+ r) = Utf8.decode v ++ Utf8.decode r.
Proof.
  unfold well_formed. intros [Hv Hcs]%andb_true_iff.
  apply String.eqb_eq in Hv. rewrite <- Hv at 1.
  apply decode_encode_app, Forall_forall. intros c Hc.
  rewrite forallb_forall in Hcs. apply N.ltb_lt, Hcs.
  by apply list_elem_of_In.
Qed.

Lemma blank_cons (a : ascii) (ws : string) :
  blank (String a ws) = true ->
  is_space (N_of_ascii a) = true /\ N_of_ascii a < 128 /\ blank ws = true.
Proof.
  unfold blank. cbn [list_ascii_of_string forallb].
  intros [[Ha Hlt]%andb_true_iff Hws]%andb_true_iff.
  by apply N.ltb_lt in Hlt.
Qed.

Lemma decode_blank (ws r : string) :
  blank ws = true ->
  Utf8.decode (ws +:+ r)
  = (N_of_ascii <$> list_ascii_of_string ws) ++ Utf8.decode r.
Proof.
  induction ws as [|a ws IH]; [done|].
  intros (_ & Ha & Hws)%blank_cons.
  rewrite append_cons.
  cbn [list_ascii_of_string Utf8.decode fmap list_fmap app].
  unfold Utf8.byte.
  destruct (N.ltb_spec (N_of_ascii a) 192) as [_|?]; [|lia].
  by rewrite IH.
Qed.

Lemma blank_points (ws : string) :
  blank ws = true ->
  Forall (fun c => is_space c = true)
    (N_of_ascii <$> list_ascii_of_string ws).
Proof.
  induction ws as [|a ws IH]; [constructor|].
  intros (Ha & _ & Hws)%blank_cons. constructor; [done | by apply IH].
Qed.

Lemma lstrip_blanks (W X : list N) :
  Forall (fun c => is_space c = true) W ->
  lstrip_points (W ++ X) = lstrip_points X.
Proof.
  induction 1 as [|c W Hc _ IH]; [done|].
  cbn [app lstrip_points]. by rewrite Hc.
Qed.

Lemma lstrip_all_blanks (W : list N) :
  Forall (fun c => is_space c = true) W -> lstrip_points W = [].
Proof.
  intros HW. rewrite <- (app_nil_r W). by rewrite lstrip_blanks.
Qed.

Lemma lstrip_before_blanks (X W : list N) :
  Forall (fun c => is_space c = true) W ->
  lstrip_points (X ++ W)
  = match lstrip_points X with
    | [] => []
    | kept => kept ++ W
    end.
Proof.
  intros HW. induction X as [|c X IH].
  - cbn [app lstrip_points]. by apply lstrip_all_blanks.
  - cbn [app lstrip_points]. by destruct (is_space c).
Qed.

(** Blanks on either side are not kept. *)
Lemma strip_points_blanks (W1 X W2 : list N) :
  Forall (fun c => is_space c = true) W1 ->
  Forall (fun c => is_space c = true) W2 ->
  strip_points (W1 ++ X ++ W2) = strip_points X.
Proof.
  intros H1 H2. unfold strip_points.
  rewrite lstrip_blanks, lstrip_before_blanks by done.
  destruct (lstrip_points X) as [|c kept] eqn:HX; [done|].
  rewrite rev_app_distr, lstrip_blanks; [done|].
  by apply Forall_rev.
Qed.

Lemma str_strip_padded (v v' : string) :
  well_formed v = true -> padded v v' -> str_strip v' = str_strip v.
Proof.
  intros Hv (before & after & Hb & Ha & ->).
  unfold str_strip. fold (strip_points (Utf8.decode v)).
  fold (strip_points (Utf8.decode (before +:+ v +:+ after))).
  rewrite decode_blank, decode_app by done.
  rewrite <- (append_empty_r after) at 1.
  rewrite decode_blank by done. cbn [Utf8.decode]. rewrite app_nil_r.
  f_equal. apply strip_points_blanks; by apply blank_points.
Qed.

End Utf8Facts.

Lemma same_cells_fields (row row' : Row) :
  same_cells row row' ->
  complete row' = complete row /\ row_fields row' = row_fields row.
Proof.
  intros Hsame.
  assert (forall key,
    bool_decide (row' !! key ≠ Some None)
    = bool_decide (row !! key ≠ Some None)) as Hnone.
  { intros key. specialize (Hsame key). apply bool_decide_ext.
    destruct (row !! key) as [[v|]|], (row' !! key) as [[v'|]|];
      try done; by split. }
  assert (forall key dflt, cell row' key dflt = cell row key dflt) as Hcell.
  { intros key dflt. specialize (Hsame key). unfold cell.
    destruct (row !! key) as [[v|]|], (row' !! key) as [[v'|]|];
      try done.
    destruct Hsame as [Hv Hpad]. cbn [default from_option id].
    by apply str_strip_padded. }
  split.
  - unfold complete, columns. cbn [forallb]. by rewrite !Hnone.
  - unfold row_fields. by rewrite !Hcell.
Qed.

(** X15: blanks around cells do not matter.  Two files whose rows have the
    same columns and whose cells differ only by white space before and
    after them (spaces, tabs and the like) load alike: the same story map,
    or the same failure.  So a padded theme name does not make a second
    theme, and a padded team keeps its color. *)
Theorem blanks_around_cells_are_ignored (str_lower : string -> string)
    (rows rows' : list Row) :
  Forall2 same_cells rows rows' ->
  load_from_csv str_lower rows' = load_from_csv str_lower rows.
Proof.
  intros Hrows. rewrite !load_from_csv_spec.
  assert (forallb complete rows' = forallb complete rows
          /\ row_fields <$> rows' = row_fields <$> rows) as [-> ->];
    [|done].
  induction Hrows as [|row row' rows rows' Hrow _ [IH1 IH2]]; [done|].
  destruct (same_cells_fields row row' Hrow) as [Hc Hf].
  cbn [forallb fmap list_fmap]. by rewrite Hc, Hf, IH1, IH2.
Qed.

(** X15 at a row whose theme is written with blanks around it. *)
Lemma blanks_around_cells_are_ignored_witness :
  load_from_csv ascii_lower [ {[ "Theme" := Some "  Paiement " ]} ]
  = load_from_csv ascii_lower [ {[ "Theme" := Some "Paiement" ]} ].
Proof.
  apply blanks_around_cells_are_ignored.
  constructor; [|constructor]. intros key.
  destruct (decide (key = "Theme")) as [->|Hne].
  - rewrite !lookup_singleton. split; [reflexivity|].
    exists "  ", " ". repeat split; reflexivity.
  - by rewrite !lookup_singleton_ne.
Defined.

(** ** The script as a whole *)

Section MainFacts.
Context {Sink : Type} (sink_post : Sink -> request -> response * Sink).
Variable str_lower : string -> string.
Variable read_csv : string -> option (list Row).
Implicit Types (args : Args.Namespace) (s : Sink).

Lemma rendered_fmap (t : list event) : rendered (Rendered <$> t) = t.
Proof.
  unfold rendered. induction t as [|ev t IH]; [done|]. cbn. by rewrite IH.
Qed.

Lemma rendered_app (t1 t2 : list main_event) :
  rendered (t1 ++ t2) = rendered t1 ++ rendered t2.
Proof. apply omap_app. Qed.

Lemma rendered_run (line : notice) (t : list event) (tail : list notice) :
  rendered (Announced line :: (Rendered <$> t) ++ (Announced <$> tail)) = t.
Proof.
  change (rendered ((Rendered <$> t) ++ (Announced <$> tail)) = t).
  rewrite rendered_app, rendered_fmap.
  replace (rendered (Announced <$> tail)) with (@nil event);
    [apply app_nil_r|].
  induction tail as [|n tail IH]; done.
Qed.

Lemma truthy_Some (v : option string) :
  truthy v = true -> exists text, v = Some text /\ text ≠ "".
Proof. destruct v as [[|c text]|]; [done| |done]. intros _. by eexists. Qed.

(** Without a board or without a token the script stops at once. *)
Lemma main_without_board args s :
  truthy (Args.board_id args) = false ->
  main sink_post str_lower read_csv args s = (SystemExit board_missing, [], s).
Proof. intros H. unfold main. by rewrite H. Qed.

Lemma main_without_token args s :
  truthy (Args.board_id args) = true ->
  truthy (Args.token args) = false ->
  main sink_post str_lower read_csv args s = (SystemExit token_missing, [], s).
Proof. intros Hb Ht. unfold main. by rewrite Hb, Ht. Qed.

(** With both, it announces the model, and renders it if it has one. *)
Lemma main_with_credentials args s :
  truthy (Args.board_id args) = true ->
  truthy (Args.token args) = true ->
  main sink_post str_lower read_csv args s
  = let choice := choose_model str_lower read_csv (Args.csv_path args) in
    match choice.2 with
    | inl failure => (failure, [Announced choice.1], s)
    | inr model =>
        let run :=
          render_storymap sink_post (default "" (Args.board_id args))
            (default "" (Args.token args)) (Args.prefix args) (Args.dry args)
            model s in
        match outcome run with
        | Ok _ =>
            (Completed,
             Announced choice.1
             :: (Rendered <$> trace run) ++ [Announced Finished],
             sink_after run)
        | Raise e =>
            (Uncaught e, Announced choice.1 :: (Rendered <$> trace run),
             sink_after run)
        end
    end.
Proof.
  intros Hb Ht. unfold main. rewrite Hb, Ht. cbn [negb]. cbn zeta.
  destruct (choose_model _ _ _) as [line [failure|model]]; [done|].
  cbn [fst snd]. by destruct (render_storymap _ _ _ _ _ _ _) as [[[[]|e] t] s'].
Qed.

(** The loader's only exception. *)
Lemma choose_model_failure (csv_path : option string) (failure : exit) :
  (choose_model str_lower read_csv csv_path).2 = inl failure ->
  failure = Unreadable
  \/ failure
     = Uncaught (AttributeError "'NoneType' object has no attribute 'strip'").
Proof.
  unfold choose_model. destruct (truthy csv_path); [|done]. cbn [snd].
  destruct (read_csv _) as [rows|]; [|intros [= <-]; by left].
  rewrite load_from_csv_spec.
  destruct (forallb complete rows); [done|]. intros [= <-]. by right.
Qed.

End MainFacts.

(** X16: once [parse_args] has returned its namespace, [main] ends with
    SystemExit exactly when the board id or the token of that namespace is
    missing ([None] or empty), the board being checked first.  [main] has
    then printed nothing and sent nothing, and this holds for a dry run as
    well, which needs both although it uses neither.  (The exit argparse
    makes itself, for [-h] or a usage error, happens inside [parse_args],
    before there is a namespace, and is outside the model.) *)
Theorem main_needs_credentials {Sink : Type}
    (sink_post : Sink -> request -> response * Sink)
    (str_lower : string -> string) (read_csv : string -> option (list Row))
    (args : Args.Namespace) (s : Sink) :
  let run := main sink_post str_lower read_csv args s in
  let missing (v : option string) := v = None \/ v = Some "" in
  (missing (Args.board_id args)
   <-> run = (SystemExit "Veuillez fournir --board ou définir MIRO_BOARD_ID",
              [], s))
  /\ (¬ missing (Args.board_id args) /\ missing (Args.token args)
      <-> run = (SystemExit "Veuillez fournir --token ou définir MIRO_TOKEN",
                 [], s))
  /\ (missing (Args.board_id args) \/ missing (Args.token args)
      <-> exists msg, run.1.1 = SystemExit msg).
Proof.
  cbn beta zeta.
  assert (forall v : option string,
    truthy v = false <-> v = None \/ v = Some "") as Hmissing.
  { intros [[|c text]|]; cbn; intuition congruence. }
  assert (forall v : option string,
    truthy v = true <-> ¬ (v = None \/ v = Some "")) as Hgiven.
  { intros v. rewrite <- Hmissing. by destruct (truthy v). }
  destruct (truthy (Args.board_id args)) eqn:Hb.
  - assert (¬ (Args.board_id args = None \/ Args.board_id args = Some ""))
      as Hnb by (by apply Hgiven).
    destruct (truthy (Args.token args)) eqn:Ht.
    + assert (¬ (Args.token args = None \/ Args.token args = Some ""))
        as Hnt by (by apply Hgiven).
      rewrite main_with_credentials by done. cbn zeta.
      destruct (choose_model _ _ _) as [line [failure|model]] eqn:Hchoice;
        cbn [fst snd].
      * assert (failure = Unreadable
                \/ failure = Uncaught (AttributeError
                     "'NoneType' object has no attribute 'strip'")) as Hf.
        { apply (choose_model_failure str_lower read_csv (Args.csv_path args)).
          by rewrite Hchoice. }
        split; [split; [tauto | intros [= ? ?]]|].
        split; [split; [tauto | intros [= ? ?]]|].
        split; [tauto|]. intros [msg Hmsg]. cbn in Hmsg.
        destruct Hf as [->| ->]; discriminate.
      * destruct (outcome _);
          (split; [split; [tauto | intros [= ? ?]]|]);
          (split; [split; [tauto | intros [= ? ?]]|]);
          (split; [tauto | intros [msg Hmsg]; discriminate]).
    + assert (Args.token args = None \/ Args.token args = Some "") as Hnt
        by (by apply Hmissing).
      rewrite main_without_token by done.
      split; [split; [tauto | intros [= ?]]|].
      split; [split; [done | tauto]|]. split; [by eexists | tauto].
  - assert (Args.board_id args = None \/ Args.board_id args = Some "")
      as Hnb by (by apply Hmissing).
    rewrite main_without_board by done.
    split; [done|]. split; [split; [tauto | intros [= ?]]|].
    split; [by eexists | tauto].
Qed.

(** X17: a dry run leaves the board alone.  Once [parse_args] has returned
    a namespace with [dry] set, whatever else the namespace, the file and
    the Sink hold, [main] makes no call and leaves the Sink as it was, and
    it can end in four ways only: normally, with SystemExit for a missing
    board id or token, with the error of a file that cannot be read, or
    with the AttributeError of a row shorter than the header.  (The exit
    argparse makes itself, for [-h] or a usage error, happens inside
    [parse_args] and is outside the model.) *)
Theorem dry_run_leaves_the_board_alone {Sink : Type}
    (sink_post : Sink -> request -> response * Sink)
    (str_lower : string -> string) (read_csv : string -> option (list Row))
    (args : Args.Namespace) (s : Sink) :
  Args.dry args = true ->
  let run := main sink_post str_lower read_csv args s in
  run.2 = s
  /\ requests (rendered run.1.2) = []
  /\ (run.1.1 = Completed
      \/ (exists msg, run.1.1 = SystemExit msg)
      \/ run.1.1 = Unreadable
      \/ run.1.1
         = Uncaught
             (AttributeError "'NoneType' object has no attribute 'strip'")).
Proof.
  intros Hdry. cbn zeta.
  destruct (truthy (Args.board_id args)) eqn:Hb.
  2:{ rewrite main_without_board by done. repeat split.
      right. left. by eexists. }
  destruct (truthy (Args.token args)) eqn:Ht.
  2:{ rewrite main_without_token by done. repeat split.
      right. left. by eexists. }
  rewrite main_with_credentials by done. cbn zeta. rewrite Hdry.
  destruct (choose_model _ _ _) as [line [failure|model]] eqn:Hchoice;
    cbn [fst snd].
  - repeat split. right. right.
    apply (choose_model_failure str_lower read_csv (Args.csv_path args)).
    by rewrite Hchoice.
  - rewrite render_storymap_dispatch, for_each_dispatch_dry.
    unfold outcome, trace, sink_after. cbn [fst snd].
    split; [done|]. split; [|by left].
    rewrite (rendered_run line _ [Finished]).
    induction (layout (Args.prefix args) model); done.
Qed.

(** X17 at a dry run of the default story map. *)
Lemma dry_run_leaves_the_board_alone_witness :
  let run :=
    main (scripted_post (created "x")) ascii_lower (fun _ => None)
      (Args.mk (Some "B") (Some "tok") None "R4" true) failing_script in
  run.2 = failing_script /\ requests (rendered run.1.2) = [].
Proof.
  destruct (dry_run_leaves_the_board_alone (scripted_post (created "x"))
              ascii_lower (fun _ => None)
              (Args.mk (Some "B") (Some "tok") None "R4" true) failing_script
              eq_refl) as (Hsink & Hrequests & _).
  exact (conj Hsink Hrequests).
Defined.

(** X18: the story map is loaded before anything is rendered.  When the
    file named by [--csv] cannot be read, or has a row shorter than its
    header, the script ends with that error after the line that announces
    the load: no element is described or created, in either mode. *)
Theorem bad_file_sends_nothing {Sink : Type}
    (sink_post : Sink -> request -> response * Sink)
    (str_lower : string -> string) (read_csv : string -> option (list Row))
    (board_id token path prefix : string) (dry : bool) (s : Sink) :
  board_id ≠ "" -> token ≠ "" -> path ≠ "" ->
  match read_csv path with
  | None => True
  | Some rows => forallb complete rows = false
  end ->
  main sink_post str_lower read_csv
    (Args.mk (Some board_id) (Some token) (Some path) prefix dry) s
  = (match read_csv path with
     | None => Unreadable
     | Some _ =>
         Uncaught (AttributeError "'NoneType' object has no attribute 'strip'")
     end,
     [Announced (LoadingCsv path)], s).
Proof.
  intros Hb Ht Hp Hbad.
  rewrite main_with_credentials;
    [| by destruct board_id | by destruct token].
  cbn zeta. unfold choose_model. cbn [Args.csv_path].
  replace (truthy (Some path)) with true by (by destruct path).
  cbn [default from_option id fst snd].
  destruct (read_csv path) as [rows|]; [|done].
  rewrite load_from_csv_spec, Hbad. done.
Qed.

(** X18 at a file whose only line is shorter than the header, in apply
    mode. *)
Lemma bad_file_sends_nothing_witness :
  main (scripted_post (created "x")) ascii_lower
    (fun _ => Some [ {[ "Theme" := Some "T"; "Story" := None ]} ])
    (Args.mk (Some "B") (Some "tok") (Some "r4.csv") "R4" false) []
  = (Uncaught (AttributeError "'NoneType' object has no attribute 'strip'"),
     [Announced (LoadingCsv "r4.csv")], []).
Proof.
  apply (bad_file_sends_nothing (scripted_post (created "x")) ascii_lower
           (fun _ => Some [ {[ "Theme" := Some "T"; "Story" := None ]} ])
           "B" "tok" "r4.csv" "R4" false []);
    [discriminate | discriminate | discriminate | reflexivity].
Defined.

(** X19: the script prints "Terminé." exactly when it completes, and as
    its last line.  A run that completes printed the line that announces the
    model, then everything the renderer did for that model, which ended
    without an exception, then "Terminé."; otherwise the script stops where
    the renderer stopped. *)
Theorem main_finishes_when_rendered {Sink : Type}
    (sink_post : Sink -> request -> response * Sink)
    (str_lower : string -> string) (read_csv : string -> option (list Row))
    (args : Args.Namespace) (s : Sink) :
  let run := main sink_post str_lower read_csv args s in
  (run.1.1 = Completed <-> Announced Finished ∈ run.1.2)
  /\ (run.1.1 = Completed <-> last run.1.2 = Some (Announced Finished))
  /\ match run.1.1 with
     | Completed =>
         exists line model board_id token,
           Args.board_id args = Some board_id
           /\ Args.token args = Some token
           /\ choose_model str_lower read_csv (Args.csv_path args)
              = (line, inr model)
           /\ outcome (render_storymap sink_post board_id token
                         (Args.prefix args) (Args.dry args) model s)
              = Ok tt
           /\ run.1.2
              = Announced line
                :: (Rendered
                      <$> trace (render_storymap sink_post board_id token
                                   (Args.prefix args) (Args.dry args) model s))
                ++ [Announced Finished]
     | SystemExit _ | Unreadable => rendered run.1.2 = []
     | Uncaught e =>
         rendered run.1.2 = []
         \/ exists line model board_id token,
              Args.board_id args = Some board_id
              /\ Args.token args = Some token
              /\ choose_model str_lower read_csv (Args.csv_path args)
                 = (line, inr model)
              /\ outcome (render_storymap sink_post board_id token
                            (Args.prefix args) (Args.dry args) model s)
                 = Raise e
              /\ run.1.2
                 = Announced line
                   :: (Rendered
                         <$> trace (render_storymap sink_post board_id token
                                      (Args.prefix args) (Args.dry args)
                                      model s))
     end.
Proof.
  cbn zeta.
  assert (forall t : list event, Announced Finished ∉ Rendered <$> t)
    as Hrendered.
  { intros t Hin. apply list_elem_of_fmap in Hin as (ev & [=] & _). }
  assert (forall t : list event,
    last (Rendered <$> t) ≠ Some (Announced Finished)) as Hlast.
  { intros t. rewrite fmap_last. by destruct (last t). }
  destruct (truthy (Args.board_id args)) eqn:Hb.
  2:{ rewrite main_without_board by done. cbn [fst snd].
      split; [split; [done | by intros ?%elem_of_nil]|]. by split. }
  destruct (truthy (Args.token args)) eqn:Ht.
  2:{ rewrite main_without_token by done. cbn [fst snd].
      split; [split; [done | by intros ?%elem_of_nil]|]. by split. }
  rewrite main_with_credentials by done. cbn zeta.
  apply truthy_Some in Hb as (board_id & Hb & _).
  apply truthy_Some in Ht as (token & Ht & _). rewrite Hb, Ht.
  cbn [default from_option id].
  destruct (choose_model _ _ _) as [line [failure|model]] eqn:Hchoice;
    cbn [fst snd].
  - assert (line ≠ Finished) as Hne.
    { unfold choose_model in Hchoice.
      destruct (truthy (Args.csv_path args)); by injection Hchoice as <- _. }
    assert (failure ≠ Completed) as Hf.
    { intros ->.
      destruct (choose_model_failure str_lower read_csv (Args.csv_path args)
                  Completed); [by rewrite Hchoice | done | done]. }
    split; [split; [done|]|].
    { rewrite list_elem_of_singleton. by intros [= ?]. }
    split; [split; [done | intros [= ?]; congruence]|].
    assert (failure = Unreadable
            \/ failure = Uncaught (AttributeError
                 "'NoneType' object has no attribute 'strip'")) as Hcase.
    { apply (choose_model_failure str_lower read_csv (Args.csv_path args)).
      by rewrite Hchoice. }
    destruct Hcase as [-> | ->]; [done | by left].
  - assert (line ≠ Finished) as Hne.
    { unfold choose_model in Hchoice.
      destruct (truthy (Args.csv_path args)); by injection Hchoice as <- _. }
    destruct (outcome _) as [[]|e] eqn:Hout; cbn [fst snd].
    + split; [split; [intros _ | done]|].
      { rewrite elem_of_cons, elem_of_app, list_elem_of_singleton. auto. }
      split; [split; [intros _ | done]|].
      { rewrite app_comm_cons. apply last_snoc. }
      by exists line, model, board_id, token.
    + split; [split; [done|]|].
      { rewrite elem_of_cons. intros [[= ?]|Hin]; [done|].
        by apply Hrendered in Hin. }
      split; [split; [done|]|].
      { destruct (trace _) as [|ev t] eqn:Htrace; [by intros [= ?]|].
        change (last (Announced line :: (Rendered <$> ev :: t)))
          with (last (Rendered <$> ev :: t)).
        intros Hl. by apply Hlast in Hl. }
      right. by exists line, model, board_id, token.
Qed.

(** X20: without [--csv], or with an empty path, the script renders
    DEFAULT_MODEL and reads no file: what it does is then the same whatever
    the files hold, and its first line says that the default model is
    used. *)
Theorem default_model_without_csv {Sink : Type}
    (sink_post : Sink -> request -> response * Sink)
    (str_lower str_lower' : string -> string)
    (read_csv read_csv' : string -> option (list Row))
    (args : Args.Namespace) (s : Sink) :
  Args.csv_path args = None \/ Args.csv_path args = Some "" ->
  main sink_post str_lower read_csv args s
  = main sink_post str_lower' read_csv' args s
  /\ choose_model str_lower read_csv (Args.csv_path args)
     = (UsingDefaultModel, inr DEFAULT_MODEL)
  /\ forall board_id token,
       Args.board_id args = Some board_id -> board_id ≠ "" ->
       Args.token args = Some token -> token ≠ "" ->
       rendered (main sink_post str_lower read_csv args s).1.2
       = trace (render_storymap sink_post board_id token (Args.prefix args)
                  (Args.dry args) DEFAULT_MODEL s)
         /\ head (main sink_post str_lower read_csv args s).1.2
            = Some (Announced UsingDefaultModel).
Proof.
  intros Hcsv.
  assert (forall lower reader,
    choose_model lower reader (Args.csv_path args)
    = (UsingDefaultModel, inr DEFAULT_MODEL)) as Hchoice.
  { intros lower reader. by destruct Hcsv as [-> | ->]. }
  split; [|split; [apply Hchoice|]].
  - unfold main. by rewrite !Hchoice.
  - intros board_id token Hb Hnb Ht Hnt.
    rewrite main_with_credentials;
      [| rewrite Hb; by destruct board_id | rewrite Ht; by destruct token].
    cbn zeta. rewrite Hchoice, Hb, Ht. cbn [fst snd default from_option id].
    destruct (outcome _); cbn [fst snd]; (split; [|done]).
    + apply (rendered_run UsingDefaultModel _ [Finished]).
    + apply (rendered_fmap (trace _)).
Qed.

(** X20 at an empty [--csv] in a dry run. *)
Lemma default_model_without_csv_witness :
  choose_model ascii_lower (fun _ => None) (Some "")
  = (UsingDefaultModel, inr DEFAULT_MODEL).
Proof.
  exact (proj1 (proj2 (default_model_without_csv
    (scripted_post (created "x")) ascii_lower ascii_lower (fun _ => None)
    (fun _ => None) (Args.mk (Some "B") (Some "tok") (Some "") "R4" true) []
    (or_intror eq_refl)))).
Defined.

(** X21: the board id and the token come from the command line, and from
    the environment only for an option that is left out: the variables
    MIRO_BOARD_ID and MIRO_TOKEN, and no other.  An option that is given
    hides its variable even when it is empty, so that an empty [--board]
    stops the script although MIRO_BOARD_ID is set; and with neither the
    option nor the variable the script stops as well. *)
Theorem credentials_from_options_or_environment {Sink : Type}
    (sink_post : Sink -> request -> response * Sink)
    (str_lower : string -> string) (read_csv : string -> option (list Row))
    (environ environ' : gmap string string) (cl : CommandLine) (s : Sink) :
  (opt_board cl = None ->
   environ !! "MIRO_BOARD_ID" = environ' !! "MIRO_BOARD_ID") ->
  (opt_token cl = None -> environ !! "MIRO_TOKEN" = environ' !! "MIRO_TOKEN") ->
  main sink_post str_lower read_csv (parse_args environ cl) s
  = main sink_post str_lower read_csv (parse_args environ' cl) s
  /\ (opt_board cl = Some ""
      \/ opt_board cl = None /\ environ !! "MIRO_BOARD_ID" = None ->
      main sink_post str_lower read_csv (parse_args environ cl) s
      = (SystemExit "Veuillez fournir --board ou définir MIRO_BOARD_ID",
         [], s))
  /\ (opt_prefix cl = None -> Args.prefix (parse_args environ cl) = "R4")
  /\ Args.dry (parse_args environ cl) = opt_dry_run cl.
Proof.
  intros Hboard Htoken. split; [|split; [|split]].
  - f_equal. unfold parse_args, option_or. f_equal.
    + destruct (opt_board cl); [done | by apply Hboard].
    + destruct (opt_token cl); [done | by apply Htoken].
  - intros Hmissing. apply main_without_board.
    unfold parse_args, option_or. cbn [Args.board_id].
    destruct Hmissing as [-> | [-> ->]]; done.
  - intros Hprefix. unfold parse_args, option_or. cbn [Args.prefix].
    by rewrite Hprefix.
  - done.
Qed.

(** X21 at a command line that gives an empty [--board] and no token, with
    both variables set. *)
Lemma credentials_from_options_or_environment_witness :
  main (scripted_post (created "x")) ascii_lower (fun _ => None)
    (parse_args {[ "MIRO_BOARD_ID" := "B"; "MIRO_TOKEN" := "tok" ]}
       (mkCommandLine (Some "") None None None true)) []
  = (SystemExit "Veuillez fournir --board ou définir MIRO_BOARD_ID", [], []).
Proof.
  apply (credentials_from_options_or_environment
           (scripted_post (created "x")) ascii_lower (fun _ => None)
           {[ "MIRO_BOARD_ID" := "B"; "MIRO_TOKEN" := "tok" ]}
           {[ "MIRO_BOARD_ID" := "B"; "MIRO_TOKEN" := "tok" ]}
           (mkCommandLine (Some "") None None None true) []
           (fun _ => eq_refl) (fun _ => eq_refl)).
  left. reflexivity.
Defined.
